(** * ERPNext document intelligence: the upload API, the mock servers and the
      document-to-form contract

    The development embeds, function by function,

    - [src/api_server.py]: the Flask handlers [upload_invoice] and [upload_po];
    - [src/tests/mock_api_server.py]: [MockAPIHandler] with [_send_json_response],
      [do_POST], [do_GET] and [do_PUT];

    and, for the frontend that the browser tests drive but that is not part of the
    Python sources, the validator, the outcome resolver and the lifecycle as the
    specification words them (module [Frontend]).

    Conventions.  A Python [dict] literal is an association list in source order, a
    Python [str] is a [string], [x in s] and [s.endswith(x)] are the boolean
    functions [str_in] and [endswith] below.  Numeric literals are the rationals they
    denote; every number that enters a derived-field equation is an integer or a
    multiple of one half, so the arithmetic the equations speak of is exact. *)

From Stdlib Require Import String Ascii List Bool ZArith QArith Qround Lia.
From Stdlib Require Import Numbers.DecimalString.
Import ListNotations.

Open Scope list_scope.
Open Scope string_scope.

(** ** Python strings *)

Module Py.

(** [sub in s]: some suffix of [s] starts with [sub]. *)
Fixpoint str_in (sub s : string) : bool :=
  String.prefix sub s ||
  match s with
  | EmptyString => false
  | String _ t => str_in sub t
  end.

(** [s.endswith(suf)]: some suffix of [s] is [suf]. *)
Fixpoint endswith (s suf : string) : bool :=
  String.eqb s suf ||
  match s with
  | EmptyString => false
  | String _ t => endswith t suf
  end.

(** [s.startswith(p)]. *)
Definition startswith (s p : string) : bool := String.prefix p s.

(** [str(n)] for a natural number. *)
Definition str_of_nat (n : nat) : string := NilEmpty.string_of_uint (Nat.to_uint n).

End Py.

(** ** JSON values, as [jsonify] and [json.dumps] receive them *)

Module Json.

#[local] Unset Elimination Schemes.
Inductive json : Type :=
| JNull
| JBool (b : bool)
| JInt (n : Z)
| JFloat (q : Q)
| JStr (s : string)
| JList (l : list json)
| JDict (d : list (string * json)).
#[local] Set Elimination Schemes.

(** [d[k]] on an association list: the first binding of [k]. *)
Fixpoint assoc {A : Type} (k : string) (d : list (string * A)) : option A :=
  match d with
  | [] => None
  | (k', v) :: d' => if String.eqb k k' then Some v else assoc k d'
  end.

(** [k in d] *)
Definition mem {A : Type} (k : string) (d : list (string * A)) : bool :=
  match assoc k d with Some _ => true | None => false end.

Definition get (k : string) (j : json) : option json :=
  match j with
  | JDict d => assoc k d
  | _ => None
  end.

Definition has_key (k : string) (j : json) : bool :=
  match get k j with Some _ => true | None => false end.

Definition is_dict (j : json) : bool :=
  match j with JDict _ => true | _ => false end.

Definition as_num (j : json) : option Q :=
  match j with
  | JInt n => Some (inject_Z n)
  | JFloat q => Some q
  | _ => None
  end.

Definition as_str (j : json) : option string :=
  match j with JStr s => Some s | _ => None end.

Definition as_list (j : json) : option (list json) :=
  match j with JList l => Some l | _ => None end.

Definition get_num (k : string) (j : json) : option Q :=
  match get k j with Some v => as_num v | None => None end.

Definition get_str (k : string) (j : json) : option string :=
  match get k j with Some v => as_str v | None => None end.

Definition get_list (k : string) (j : json) : option (list json) :=
  match get k j with Some v => as_list v | None => None end.

(** Every key of [ks] is bound in the object [j]. *)
Definition has_keys (ks : list string) (j : json) : bool :=
  forallb (fun k => has_key k j) ks.

End Json.

Import Json.

(** ** The derived-field calculator of the specification (section 4.1) *)

Module Calc.

Open Scope Q_scope.

(** Round half to even, the mode of Python's [round]. *)
Definition round_half_even (x : Q) : Z :=
  let f := Qfloor x in
  match Qcompare (x - inject_Z f) (1 # 2) with
  | Lt => f
  | Gt => (f + 1)%Z
  | Eq => if Z.even f then f else (f + 1)%Z
  end.

(** [round(x, 2)] *)
Definition round2 (x : Q) : Q := inject_Z (round_half_even (x * 100)) / 100.

Definition qsum (l : list Q) : Q := fold_right Qplus 0 l.

Definition option_all {A : Type} (l : list (option A)) : option (list A) :=
  fold_right
    (fun o acc =>
       match o, acc with
       | Some a, Some r => Some (a :: r)
       | _, _ => None
       end)
    (Some []) l.

End Calc.

(** ** The records of the specification's data model (section 3), read off a
       raw-extraction object (section 6) *)

Module Invoice.

Record LineItem : Type := mkLineItem {
  description : string;
  category : string;
  quantity : Q;
  rate : Q;
  amount : Q
}.

Record Document : Type := mkDocument {
  invoice_id : string;
  vendor_name : string;
  invoice_date : string;
  billing_address : string;
  shipping_address : string;
  items : list LineItem;
  shipping_cost : Q;
  tax : Q;
  subtotal : Q;
  total : Q
}.

Definition item_of_json (j : json) : option LineItem :=
  match get_str "description" j, get_str "category" j,
        get_num "quantity" j, get_num "rate" j, get_num "amount" j with
  | Some d, Some c, Some q, Some r, Some a => Some (mkLineItem d c q r a)
  | _, _, _, _, _ => None
  end.

(** [data] is the object under the response's ["data"] key. *)
Definition of_json (data : json) : option Document :=
  match get_str "InvoiceId" data, get_str "VendorName" data,
        get_str "InvoiceDate" data, get_str "BillingAddressRecipient" data,
        get_str "ShippingAddress" data, get_list "Items" data with
  | Some i, Some v, Some d, Some b, Some s, Some l =>
      match Calc.option_all (map item_of_json l),
            get_num "ShippingCost" data, get_num "Tax" data,
            get_num "SubTotal" data, get_num "InvoiceTotal" data with
      | Some its, Some sh, Some tx, Some sub, Some tot =>
          Some (mkDocument i v d b s its sh tx sub tot)
      | _, _, _, _, _ => None
      end
  | _, _, _, _, _, _ => None
  end.

Open Scope Q_scope.

(** The derived-field equations, with the rounding the specification asks for. *)
Definition item_derived (it : LineItem) : Prop :=
  amount it == Calc.round2 (quantity it * rate it).

Definition derived (d : Document) : Prop :=
  Forall item_derived (items d) /\
  subtotal d == Calc.round2 (Calc.qsum (map amount (items d))) /\
  total d == Calc.round2 (subtotal d + shipping_cost d + tax d).

(** The same equations without rounding. *)
Definition item_exact (it : LineItem) : Prop :=
  amount it == quantity it * rate it.

Definition exact (d : Document) : Prop :=
  Forall item_exact (items d) /\
  subtotal d == Calc.qsum (map amount (items d)) /\
  total d == subtotal d + shipping_cost d + tax d.

End Invoice.

Module PO.

Record LineItem : Type := mkLineItem {
  description : string;
  quantity : Q;
  unit_price : Q;
  total : Q
}.

Record Document : Type := mkDocument {
  po_number : string;
  date : string;
  delivery_date : string;
  supplier_name : string;
  company_name : string;
  items : list LineItem;
  total_amount : Q;
  status : string
}.

Definition item_of_json (j : json) : option LineItem :=
  match get_str "description" j,
        get_num "quantity" j, get_num "unit_price" j, get_num "total" j with
  | Some d, Some q, Some u, Some t => Some (mkLineItem d q u t)
  | _, _, _, _ => None
  end.

(** [data] is the object that holds the purchase-order fields. *)
Definition of_json (data : json) : option Document :=
  match get_str "po_number" data, get_str "date" data,
        get_str "delivery_date" data, get_str "supplier_name" data,
        get_str "company_name" data, get_list "items" data with
  | Some n, Some d, Some dd, Some s, Some c, Some l =>
      match Calc.option_all (map item_of_json l),
            get_num "total_amount" data, get_str "status" data with
      | Some its, Some ta, Some st => Some (mkDocument n d dd s c its ta st)
      | _, _, _ => None
      end
  | _, _, _, _, _, _ => None
  end.

Open Scope Q_scope.

Definition item_derived (it : LineItem) : Prop :=
  total it == Calc.round2 (quantity it * unit_price it).

Definition items_derived (d : Document) : Prop :=
  Forall item_derived (items d).

(** The item equation without rounding. *)
Definition item_exact (it : LineItem) : Prop :=
  total it == quantity it * unit_price it.

Definition items_exact (d : Document) : Prop :=
  Forall item_exact (items d).

Definition items_total (d : Document) : Q :=
  Calc.qsum (map total (items d)).

Definition total_derived (d : Document) : Prop :=
  total_amount d == Calc.round2 (items_total d).

End PO.

(** ** [src/api_server.py] *)

Module ApiServer.

Definition UPLOAD_FOLDER : string := "uploads".

(** [app.config['MAX_CONTENT_LENGTH']], 16 MB. *)
Definition MAX_CONTENT_LENGTH : Z := 16 * 1024 * 1024.

(** A part of [request.files]: werkzeug's [FileStorage]. *)
Record FileStorage : Type := mkFileStorage {
  filename : string;
  stream : string
}.

(** The request as the handlers read it: the multi-dict [request.files], once
    werkzeug has parsed the body. *)
Record Request : Type := mkRequest {
  files : list (string * FileStorage)
}.

(** The request as it arrives: the length of its body and the file parts in it. *)
Record HttpRequest : Type := mkHttpRequest {
  content_length : Z;
  parts : list (string * FileStorage)
}.

(** What ends a request without a return value of the handler: the [OSError] of
    [file.save] (a [FileNotFoundError] when the directory of the path does not
    exist), and werkzeug's [RequestEntityTooLarge]. *)
Inductive Exception : Type :=
| OSError (filepath : string)
| RequestEntityTooLarge.

(** A reading of [datetime.now()], by the two formats the handlers print it in. *)
Record datetime : Type := mkDatetime {
  strftime_stamp : string;   (* '%Y%m%d_%H%M%S' *)
  strftime_day : string      (* '%Y-%m-%d' *)
}.

(** What the handlers write to: the files on disk and the standard output; and
    what the file system says of a path, whether [open(path, "wb")] goes through
    (its directory exists, the path is no directory, the process may write). *)
Record World : Type := mkWorld {
  disk : list (string * string);
  stdout : list string;
  writable : string -> bool
}.

(** [os.path.join(a, b)] for a directory name [a] that is not empty and has no
    trailing separator. *)
Definition path_join (a b : string) : string :=
  if Py.startswith b "/" then b else a ++ "/" ++ b.

(** [file.save(filepath)]: the content replaces what the path held, or the call
    raises and nothing is written. *)
Definition save (file : FileStorage) (filepath : string) (w : World)
  : Exception + World :=
  if writable w filepath then
    inr (mkWorld ((filepath, stream file) :: disk w) (stdout w) (writable w))
  else inl (OSError filepath).

Definition print (line : string) (w : World) : World :=
  mkWorld (disk w) (stdout w ++ [line])%list (writable w).

(** A handler's return value: [jsonify(body), status]. *)
Definition Response : Type := (json * Z)%type.

(** How a call of a handler ends: with its return value or with an exception. *)
Definition Result : Type := (Response + Exception)%type.

Open Scope Z_scope.

(** [upload_invoice]; [t_name] and [t_date] are the two readings of the clock, in
    the order the handler takes them. *)
Definition upload_invoice (t_name t_date : datetime) (request : Request) (w : World)
  : Result * World :=
  match assoc "file" (files request) with
  | None => (inl (JDict [("error", JStr "No file provided")], 400), w)
  | Some file =>
      if String.eqb (filename file) "" then
        (inl (JDict [("error", JStr "No file selected")], 400), w)
      else if negb (Py.endswith (filename file) ".pdf") then
        (inl (JDict [("error", JStr "Only PDF files are accepted")], 400), w)
      else
        let filename := "invoice_" ++ strftime_stamp t_name ++ "_" ++ filename file in
        let filepath := path_join UPLOAD_FOLDER filename in
        match save file filepath w with
        | inl e => (inr e, w)
        | inr w =>
        let w := print ("✅ Invoice uploaded: " ++ filename) w in
        let mock_data :=
          JDict [
            ("confidence", JFloat 0.85);
            ("data", JDict [
               ("InvoiceId", JStr "INV-2026-001");
               ("VendorName", JStr "Sample Vendor Inc");
               ("InvoiceDate", JStr (strftime_day t_date));
               ("BillingAddressRecipient", JStr "John Doe");
               ("ShippingAddress", JStr "123 Main St, City, State 12345");
               ("SubTotal", JFloat 1000.00);
               ("ShippingCost", JFloat 50.00);
               ("InvoiceTotal", JFloat 1100.00);
               ("Tax", JFloat 50.00);
               ("Items", JList [
                  JDict [
                    ("description", JStr "Sample Product 1");
                    ("category", JStr "Category A");
                    ("quantity", JInt 2);
                    ("rate", JFloat 300.00);
                    ("amount", JFloat 600.00)
                  ];
                  JDict [
                    ("description", JStr "Sample Product 2");
                    ("category", JStr "Category B");
                    ("quantity", JInt 1);
                    ("rate", JFloat 400.00);
                    ("amount", JFloat 400.00)
                  ]
                ])
             ]);
            ("predictionTime", JFloat 2.5);
            ("filename", JStr filename)
          ] in
        (inl (mock_data, 200), w)
        end
  end.

(** [upload_po] *)
Definition upload_po (t_name t_date : datetime) (request : Request) (w : World)
  : Result * World :=
  match assoc "file" (files request) with
  | None => (inl (JDict [("error", JStr "No file provided")], 400), w)
  | Some file =>
      if String.eqb (filename file) "" then
        (inl (JDict [("error", JStr "No file selected")], 400), w)
      else if negb (Py.endswith (filename file) ".pdf") then
        (inl (JDict [("error", JStr "Only PDF files are accepted")], 400), w)
      else
        let filename := "po_" ++ strftime_stamp t_name ++ "_" ++ filename file in
        let filepath := path_join UPLOAD_FOLDER filename in
        match save file filepath w with
        | inl e => (inr e, w)
        | inr w =>
        let w := print ("✅ Purchase Order uploaded: " ++ filename) w in
        let mock_data :=
          JDict [
            ("po_number", JStr "PO-2026-001");
            ("date", JStr (strftime_day t_date));
            ("delivery_date", JStr "2026-02-15");
            ("supplier_name", JStr "ABC Suppliers Inc");
            ("company_name", JStr "My Company");
            ("total_amount", JFloat 1520.00);
            ("status", JStr "Pending");
            ("items", JList [
               JDict [
                 ("description", JStr "Ergonomic Office Chair");
                 ("quantity", JInt 5);
                 ("unit_price", JFloat 150.00);
                 ("total", JFloat 750.00)
               ];
               JDict [
                 ("description", JStr "Standing Desk - Adjustable");
                 ("quantity", JInt 3);
                 ("unit_price", JFloat 250.00);
                 ("total", JFloat 750.00)
               ];
               JDict [
                 ("description", JStr "Monitor Arm Mount");
                 ("quantity", JInt 4);
                 ("unit_price", JFloat 80.00);
                 ("total", JFloat 320.00)
               ]
             ]);
            ("filename", JStr filename)
          ] in
        (inl (mock_data, 200), w)
        end
  end.

(** [request.files] is parsed at its first use, which is the first line of either
    handler; werkzeug raises there when the body is longer than
    [MAX_CONTENT_LENGTH]. *)
Definition request_files (h : HttpRequest) : Exception + Request :=
  if Z.ltb MAX_CONTENT_LENGTH (content_length h) then inl RequestEntityTooLarge
  else inr (mkRequest (parts h)).

(** The route [POST /upload/invoice]. *)
Definition route_upload_invoice (t_name t_date : datetime) (h : HttpRequest) (w : World)
  : Result * World :=
  match request_files h with
  | inl e => (inr e, w)
  | inr request => upload_invoice t_name t_date request w
  end.

(** The route [POST /upload/po]. *)
Definition route_upload_po (t_name t_date : datetime) (h : HttpRequest) (w : World)
  : Result * World :=
  match request_files h with
  | inl e => (inr e, w)
  | inr request => upload_po t_name t_date request w
  end.

(** The status of the HTTP response: the handler's when it returns; 413 for
    [RequestEntityTooLarge], an HTTP exception that Flask answers with its own
    code; 500 for any other exception. *)
Definition status_code (r : Result * World) : Z :=
  match fst r with
  | inl response => snd response
  | inr RequestEntityTooLarge => 413
  | inr (OSError _) => 500
  end.

(** The JSON of the response; a request that ends in an exception has no JSON
    body, which is [JNull] here. *)
Definition body (r : Result * World) : json :=
  match fst r with
  | inl response => fst response
  | inr _ => JNull
  end.

End ApiServer.

(** ** [src/tests/mock_api_server.py] *)

Module MockAPIHandler.

(** One response on the wire: the status line, the headers and the JSON value that
    [json.dumps] serialises into the body. *)
Record HttpResponse : Type := mkHttpResponse {
  status : Z;
  headers : list (string * string);
  payload : json
}.

Open Scope Z_scope.

(** [_send_json_response(status, data)] appends one response to what the handler
    has written so far. *)
Definition _send_json_response (status : Z) (data : json) (wfile : list HttpResponse)
  : list HttpResponse :=
  (wfile ++
   [mkHttpResponse status
      [("Content-type", "application/json");
       ("Access-Control-Allow-Origin", "*");
       ("Access-Control-Allow-Methods", "GET, POST, PUT, OPTIONS");
       ("Access-Control-Allow-Headers", "Content-Type, Authorization")]
      data])%list.

(** [do_POST], on the request's [self.path]. *)
Definition do_POST (path : string) (wfile : list HttpResponse) : list HttpResponse :=
  if Py.str_in "/upload/invoice" path then
    _send_json_response 200
      (JDict [
         ("data", JDict [
            ("InvoiceId", JStr "INV-2026-001");
            ("VendorName", JStr "Test Customer");
            ("InvoiceDate", JStr "2026-01-29");
            ("DueDate", JStr "2026-02-28");
            ("BillingAddressRecipient", JStr "Test Customer");
            ("ShippingAddress", JStr "123 Test St");
            ("Currency", JStr "USD");
            ("SubTotal", JFloat 200.00);
            ("ShippingCost", JFloat 15.00);
            ("Tax", JFloat 35.00);
            ("InvoiceTotal", JFloat 250.00);
            ("Items", JList [
               JDict [
                 ("description", JStr "Test Item 1");
                 ("category", JStr "Electronics");
                 ("quantity", JInt 2);
                 ("rate", JFloat 100.00);
                 ("amount", JFloat 200.00)
               ]
             ])
          ])
       ]) wfile
  else if Py.str_in "/upload/po" path then
    _send_json_response 200
      (JDict [
         ("po_number", JStr "PO-2026-00001");
         ("date", JStr "2026-01-29");
         ("delivery_date", JStr "2026-02-15");
         ("supplier_name", JStr "ABC Supplier");
         ("company_name", JStr "My Company");
         ("currency", JStr "USD");
         ("total_amount", JFloat 292.50);
         ("status", JStr "Draft");
         ("items", JList [
            JDict [
              ("item_code", JStr "ITEM-001");
              ("item_name", JStr "Steel Rod");
              ("description", JStr "Steel Rod");
              ("quantity", JInt 10);
              ("unit_price", JFloat 25.00);
              ("total", JFloat 250.00)
            ]
          ])
       ]) wfile
  else if Py.str_in "frappe.client.submit" path || Py.str_in "submit" path then
    _send_json_response 200
      (JDict [("data", JDict [("name", JStr "Submitted"); ("docstatus", JInt 1)])])
      wfile
  else if Py.str_in "Sales Invoice" path || Py.str_in "Sales%20Invoice" path then
    _send_json_response 200
      (JDict [("data", JDict [("name", JStr "SINV-2026-00001"); ("docstatus", JInt 0)])])
      wfile
  else if Py.str_in "Purchase Order" path || Py.str_in "Purchase%20Order" path then
    _send_json_response 200
      (JDict [("data", JDict [("name", JStr "PO-2026-00001"); ("docstatus", JInt 0)])])
      wfile
  else if Py.str_in "/Customer" path
          || Py.str_in "/Item" path
          || Py.str_in "/Company" path
          || Py.str_in "/Supplier" path then
    _send_json_response 200 (JDict [("data", JDict [("name", JStr "Created")])]) wfile
  else
    _send_json_response 200 (JDict [("data", JDict [])]) wfile.

(** [do_GET] *)
Definition do_GET (path : string) (wfile : list HttpResponse) : list HttpResponse :=
  if Py.str_in "/Company/" path then
    _send_json_response 200
      (JDict [("data", JDict [("name", JStr "DEMO"); ("default_currency", JStr "USD")])])
      wfile
  else if Py.str_in "/Customer/" path
          || Py.str_in "/Item/" path
          || Py.str_in "/Supplier/" path then
    _send_json_response 404 (JDict [("exc", JStr "Not Found")]) wfile
  else
    _send_json_response 200 (JDict [("data", JDict [])]) wfile.

(** [do_PUT] *)
Definition do_PUT (path : string) (wfile : list HttpResponse) : list HttpResponse :=
  if Py.str_in "SINV-" path || Py.str_in "PO-" path then
    let doc_name :=
      if Py.str_in "SINV-" path then "SINV-2026-00001" else "PO-2026-00001" in
    _send_json_response 200
      (JDict [("data", JDict [("name", JStr doc_name); ("docstatus", JInt 1)])])
      wfile
  else
    _send_json_response 200 (JDict [("data", JDict [])]) wfile.

(** The payloads of the two extraction branches of [do_POST], named. *)
Definition invoice_payload : json :=
  Eval cbv in
    match do_POST "/upload/invoice" [] with
    | [r] => payload r
    | _ => JNull
    end.

Definition po_payload : json :=
  Eval cbv in
    match do_POST "/upload/po" [] with
    | [r] => payload r
    | _ => JNull
    end.

(** The branches of [do_POST] in the order the claim about its dispatch lists
    them, each with the test it makes on the path and the JSON it answers; the
    catch-all comes after the table. *)
Inductive branch : Type :=
| UploadInvoice | UploadPO | Submit | SalesInvoice | PurchaseOrder | Entity | CatchAll.

Definition branch_test (b : branch) (path : string) : bool :=
  match b with
  | UploadInvoice => Py.str_in "/upload/invoice" path
  | UploadPO => Py.str_in "/upload/po" path
  | Submit => Py.str_in "frappe.client.submit" path || Py.str_in "submit" path
  | SalesInvoice => Py.str_in "Sales Invoice" path || Py.str_in "Sales%20Invoice" path
  | PurchaseOrder => Py.str_in "Purchase Order" path || Py.str_in "Purchase%20Order" path
  | Entity => Py.str_in "/Customer" path || Py.str_in "/Item" path
              || Py.str_in "/Company" path || Py.str_in "/Supplier" path
  | CatchAll => true
  end.

Definition branch_answer (b : branch) : json :=
  match b with
  | UploadInvoice => invoice_payload
  | UploadPO => po_payload
  | Submit => JDict [("data", JDict [("name", JStr "Submitted"); ("docstatus", JInt 1)])]
  | SalesInvoice =>
      JDict [("data", JDict [("name", JStr "SINV-2026-00001"); ("docstatus", JInt 0)])]
  | PurchaseOrder =>
      JDict [("data", JDict [("name", JStr "PO-2026-00001"); ("docstatus", JInt 0)])]
  | Entity => JDict [("data", JDict [("name", JStr "Created")])]
  | CatchAll => JDict [("data", JDict [])]
  end.

Definition post_order : list branch :=
  [UploadInvoice; UploadPO; Submit; SalesInvoice; PurchaseOrder; Entity].

(** The first branch of [bs] whose test the path passes, the catch-all if none. *)
Fixpoint first_match (bs : list branch) (path : string) : branch :=
  match bs with
  | [] => CatchAll
  | b :: bs' => if branch_test b path then b else first_match bs' path
  end.

End MockAPIHandler.

(** ** The frontend contract

    The form, its validator, the outcome resolver and the lifecycle run in the
    browser application that the tests under [src/tests] drive; that application
    is not among the Python sources.  The definitions of this module follow the
    specification, sections 3, 4.2, 4.3 and 4.4. *)

Module Frontend.

(** Modelled from the spec: the Invoice form document of section 3 (the form's
    implementation is missing from the sources). *)
Record InvoiceDocument : Type := mkInvoiceDocument {
  invoice_id : string;
  vendor_name : string;
  customer_name : string;
  company_name : string;
  invoice_date : string;
  due_date : string;
  billing_address : string;
  shipping_address : string;
  currency : string;
  items : list Invoice.LineItem;
  shipping_cost : Q;
  tax : Q
}.

(** Modelled from the spec: the status enumeration of a purchase order, section 3. *)
Inductive POStatus : Type := Draft | Pending | StatusSubmitted.

(** Modelled from the spec: a purchase-order line of section 3, which has an
    [item_code] besides the fields of the raw extraction. *)
Record POLineItem : Type := mkPOLineItem {
  item_code : string;
  po_description : string;
  po_quantity : Q;
  unit_price : Q
}.

(** Modelled from the spec: the PurchaseOrder form document of section 3 (the
    form's implementation is missing from the sources). *)
Record PurchaseOrderDocument : Type := mkPurchaseOrderDocument {
  po_number : string;
  order_date : string;
  delivery_date : string;
  supplier_name : string;
  po_company_name : string;
  po_currency : string;
  po_items : list POLineItem;
  po_status : POStatus
}.

(** *** Field validator (section 4.2) *)

(** Modelled from the spec: the validator's result, "valid" or a single error
    with its user-facing message (section 4.2). *)
Inductive Validation : Type :=
| Valid
| Invalid (message : string).

(** Modelled from the spec: a rule is a predicate with its message, [None] when the
    document passes it (section 9, the ordered-rule-list pattern; the validator's
    implementation is missing from the sources). *)
Definition Rule (D : Type) : Type := D -> option string.

(** Modelled from the spec: the rules run in their fixed order and the first one
    that fails gives the error (sections 4.2 and 9). *)
Fixpoint first_violation {D : Type} (rules : list (Rule D)) (d : D) : Validation :=
  match rules with
  | [] => Valid
  | r :: rest =>
      match r d with
      | Some message => Invalid message
      | None => first_violation rest d
      end
  end.

(** Modelled from the spec: a rule that asks for a non-empty name. *)
Definition required (message : string) (value : string) : option string :=
  if String.eqb value "" then Some message else None.

(** Modelled from the spec: the message of rule 1 for an Invoice, the literal of
    section 4.2 and of [test_invoice_missing_required_fields]. *)
Definition INVOICE_COMPANY_REQUIRED : string :=
  "Please specify a company before creating the invoice.".

(** Modelled from the spec: the message of rule 2 for a purchase order, the
    literal of section 4.2 and of [test_po_missing_required_fields]. *)
Definition SUPPLIER_REQUIRED : string := "Supplier name is required".

(** Modelled from the spec: the customer-required message of an Invoice; section
    4.2 says only that it is analogous to the supplier message, so the literal is
    this model's choice. *)
Definition CUSTOMER_REQUIRED : string := "Customer name is required".

(** Modelled from the spec: the company-required message of a purchase order;
    section 4.2 says only that the rule has a message of its own, so the literal
    is this model's choice. *)
Definition PO_COMPANY_REQUIRED : string := "Company name is required".

(** Modelled from the spec: the delivery-date error of section 4.2, rule 4, whose
    literal the specification does not give. *)
Definition DELIVERY_DATE_INVALID : string :=
  "Delivery date is required and cannot be before the order date".

(** Modelled from the spec: the message of rule 3 for the item at the 1-based
    [index]. *)
Definition quantity_message (index : nat) : string :=
  "Item " ++ Py.str_of_nat index ++ ": Quantity must be greater than zero".

(** Modelled from the spec: rule 3 on the quantities of the items from the 1-based
    [index] on; the first item whose quantity is not above zero gives the error,
    and an empty list passes. *)
Fixpoint quantities_positive (index : nat) (quantities : list Q) : option string :=
  match quantities with
  | [] => None
  | q :: rest =>
      if Qle_bool q 0 then Some (quantity_message index)
      else quantities_positive (S index) rest
  end.

(** Modelled from the spec: rule 4, on ISO dates ([YYYY-MM-DD], which order as
    strings): the delivery date is present and not before the order date. *)
Definition delivery_date_rule (order delivery : string) : option string :=
  if String.eqb delivery "" || String.ltb delivery order
  then Some DELIVERY_DATE_INVALID
  else None.

(** Modelled from the spec: the rules of an Invoice in priority order (section
    4.2, rules 1 to 3). *)
Definition invoice_rules : list (Rule InvoiceDocument) :=
  [ (fun d => required INVOICE_COMPANY_REQUIRED (company_name d));
    (fun d => required CUSTOMER_REQUIRED (customer_name d));
    (fun d => quantities_positive 1 (map Invoice.quantity (items d))) ].

(** Modelled from the spec: the rules of a purchase order in priority order
    (section 4.2, rules 1 to 4). *)
Definition po_rules : list (Rule PurchaseOrderDocument) :=
  [ (fun d => required PO_COMPANY_REQUIRED (po_company_name d));
    (fun d => required SUPPLIER_REQUIRED (supplier_name d));
    (fun d => quantities_positive 1 (map po_quantity (po_items d)));
    (fun d => delivery_date_rule (order_date d) (delivery_date d)) ].

(** Modelled from the spec: the validator of an Invoice (section 4.2). *)
Definition validate_invoice (d : InvoiceDocument) : Validation :=
  first_violation invoice_rules d.

(** Modelled from the spec: the validator of a purchase order (section 4.2). *)
Definition validate_po (d : PurchaseOrderDocument) : Validation :=
  first_violation po_rules d.

(** *** Submission outcome resolver (section 4.3) *)

(** Modelled from the spec: the two document kinds (section 2). *)
Inductive DocumentKind : Type := KindInvoice | KindPurchaseOrder.

(** Modelled from the spec: what came back from the create-then-submit sequence:
    an error text, a created document with its name and docstatus, or both
    (section 4.3 speaks of error and success signals being present together). *)
Record SubmissionResponse : Type := mkSubmissionResponse {
  error : option string;
  created : option (string * Z)
}.

(** Modelled from the spec: the two conditions section 4.3 names for a Warning, a
    benign error and a document that was created but not submitted. *)
Inductive Condition : Type :=
| Benign (error_text : string)
| NotSubmitted (reference : string).

(** Modelled from the spec: the three outcomes of section 4.3, each with what its
    message surfaces. *)
Inductive Outcome : Type :=
| Success (reference : string)
| Warning (condition : Condition)
| Error (reason : string).

(** Modelled from the spec: the reference prefixes of section 4.3. *)
Definition reference_ok (kind : DocumentKind) (name : string) : bool :=
  match kind with
  | KindInvoice => Py.startswith name "SINV-" || Py.startswith name "ACC-SINV-"
  | KindPurchaseOrder => Py.startswith name "PO-"
  end.

(** Modelled from the spec: the success signal is a generated reference number
    with the submitted status marker. *)
Definition success_signal (kind : DocumentKind) (r : SubmissionResponse) : bool :=
  match created r with
  | Some (name, docstatus) => reference_ok kind name && Z.eqb docstatus 1
  | None => false
  end.

(** Modelled from the spec: the known-benign pattern of section 4.3. *)
Definition benign (error_text : string) : bool := Py.str_in "currency" error_text.

(** Modelled from the spec: the three-way classification of section 4.3 (the
    resolver's implementation is missing from the sources).  An error text decides
    first: Warning when benign, Error otherwise.  Without one, a reference with the
    submitted marker is Success and a document that was created only is Warning;
    a response with neither is taken as a failure with no reason to show, a case
    the specification leaves open. *)
Definition resolve (kind : DocumentKind) (r : SubmissionResponse) : Outcome :=
  match error r with
  | Some text => if benign text then Warning (Benign text) else Error text
  | None =>
      match created r with
      | Some (name, docstatus) =>
          if reference_ok kind name && Z.eqb docstatus 1 then Success name
          else Warning (NotSubmitted name)
      | None => Error ""
      end
  end.

(** The three message areas of the form, by the selectors of
    [page_objects/invoice_form_page.py]: [SUCCESS_MESSAGE] is [div.bg-green-50],
    [WARNING_MESSAGE] is [div.bg-orange-50], [ERROR_MESSAGE] is [div.bg-red-50]. *)
Inductive Banner : Type := Green | Orange | Red.

(** Modelled from the spec: which message area an outcome shows in. *)
Definition visible (o : Outcome) (b : Banner) : bool :=
  match o, b with
  | Success _, Green => true
  | Warning _, Orange => true
  | Error _, Red => true
  | _, _ => false
  end.

(** *** Upload, process and submit lifecycle (section 4.4) *)

(** Modelled from the spec: the states of section 4.4. *)
Inductive State : Type :=
| Empty | Uploading | Processing | Populated | Validating | Submitting
| Submitted | Failed.

(** Modelled from the spec: a selected file, as the browser hands it over, with
    its name and MIME type. *)
Record File : Type := mkFile {
  file_name : string;
  mime_type : string
}.

(** Modelled from the spec: the file-type check, a PDF by extension or by MIME
    type (section 4.4). *)
Definition is_pdf (f : File) : bool :=
  Py.endswith (file_name f) ".pdf" || String.eqb (mime_type f) "application/pdf".

(** Modelled from the spec: the message of the file-type guard, the literal of
    section 4.4 and of [test_invoice_wrong_file_type] and [test_po_wrong_file_type]. *)
Definition INVALID_PDF : string := "Please select a valid PDF file".

(** Modelled from the spec: the events that trigger the transitions of section
    4.4. *)
Inductive Event : Type :=
| SelectFile (f : File)
| FileAccepted
| ExtractionReceived
| SubmitAction
| Validated (v : Validation)
| ResponseReceived (o : Outcome)
| Reedit.

(** Modelled from the spec: the transitions of section 4.4 (the lifecycle's
    implementation is missing from the sources).  The result is the next state and
    the message surfaced by the transition; an event that the state does not
    accept changes nothing. *)
Definition step (s : State) (e : Event) : State * option string :=
  match s, e with
  | Empty, SelectFile f =>
      if is_pdf f then (Uploading, None) else (Empty, Some INVALID_PDF)
  | Uploading, FileAccepted => (Processing, None)
  | Processing, ExtractionReceived => (Populated, None)
  | Populated, SubmitAction => (Validating, None)
  | Validating, Validated Valid => (Submitting, None)
  | Validating, Validated (Invalid message) => (Populated, Some message)
  | Submitting, ResponseReceived (Success reference) => (Submitted, Some reference)
  | Submitting, ResponseReceived (Warning (Benign text)) => (Failed, Some text)
  | Submitting, ResponseReceived (Warning (NotSubmitted reference)) =>
      (Failed, Some reference)
  | Submitting, ResponseReceived (Error reason) => (Failed, Some reason)
  | Failed, Reedit => (Populated, None)
  | _, _ => (s, None)
  end.

End Frontend.

(** ** The properties, as predicates on the embedded code *)

Module Contract.

(** *** The upload handlers' three rejections *)

Definition no_file_part (request : ApiServer.Request) : Prop :=
  assoc "file" (ApiServer.files request) = None.

Definition empty_filename (request : ApiServer.Request) : Prop :=
  exists file,
    assoc "file" (ApiServer.files request) = Some file /\
    ApiServer.filename file = "".

Definition not_pdf_filename (request : ApiServer.Request) : Prop :=
  exists file,
    assoc "file" (ApiServer.files request) = Some file /\
    Py.endswith (ApiServer.filename file) ".pdf" = false.

Definition error_body (message : string) : json := JDict [("error", JStr message)].

(** What holds of one handler, on a request whose files are parsed: status 400
    exactly on the three conditions, with an [{"error": message}] body and the
    message of the first condition that fails, in the order no file, empty name,
    extension; and past the three checks status 200 when [file.save] can write
    the path [uploads/<prefix><stamp>_<name>] and status 500 when it raises. *)
Definition handler_contract (prefix : string)
    (handler : ApiServer.datetime -> ApiServer.datetime -> ApiServer.Request ->
               ApiServer.World -> ApiServer.Result * ApiServer.World)
  : Prop :=
  forall t_name t_date request w,
    let r := handler t_name t_date request w in
    (ApiServer.status_code r = 400%Z <->
       no_file_part request \/ empty_filename request \/ not_pdf_filename request) /\
    (ApiServer.status_code r = 400%Z -> exists message, ApiServer.body r = error_body message) /\
    (no_file_part request -> ApiServer.body r = error_body "No file provided") /\
    (empty_filename request -> ApiServer.body r = error_body "No file selected") /\
    (not_pdf_filename request -> ~ empty_filename request ->
       ApiServer.body r = error_body "Only PDF files are accepted") /\
    (forall file,
        assoc "file" (ApiServer.files request) = Some file ->
        ApiServer.filename file <> "" ->
        Py.endswith (ApiServer.filename file) ".pdf" = true ->
        (ApiServer.writable w
           ("uploads/" ++ prefix ++ ApiServer.strftime_stamp t_name ++ "_"
            ++ ApiServer.filename file) = true ->
         ApiServer.status_code r = 200%Z) /\
        (ApiServer.writable w
           ("uploads/" ++ prefix ++ ApiServer.strftime_stamp t_name ++ "_"
            ++ ApiServer.filename file) = false ->
         ApiServer.status_code r = 500%Z)).

(** The same of a route, on the request as it arrives: a body over the limit ends
    in 413 before any check, and a body within the limit is handled as above. *)
Definition route_contract (prefix : string)
    (route : ApiServer.datetime -> ApiServer.datetime -> ApiServer.HttpRequest ->
             ApiServer.World -> ApiServer.Result * ApiServer.World)
  : Prop :=
  forall t_name t_date h w,
    let r := route t_name t_date h w in
    let request := ApiServer.mkRequest (ApiServer.parts h) in
    ((ApiServer.MAX_CONTENT_LENGTH < ApiServer.content_length h)%Z ->
       ApiServer.status_code r = 413%Z) /\
    ((ApiServer.content_length h <= ApiServer.MAX_CONTENT_LENGTH)%Z ->
       (ApiServer.status_code r = 400%Z <->
          no_file_part request \/ empty_filename request \/ not_pdf_filename request) /\
       (ApiServer.status_code r = 400%Z ->
          exists message, ApiServer.body r = error_body message) /\
       (no_file_part request -> ApiServer.body r = error_body "No file provided") /\
       (empty_filename request -> ApiServer.body r = error_body "No file selected") /\
       (not_pdf_filename request -> ~ empty_filename request ->
          ApiServer.body r = error_body "Only PDF files are accepted") /\
       (forall file,
           assoc "file" (ApiServer.parts h) = Some file ->
           ApiServer.filename file <> "" ->
           Py.endswith (ApiServer.filename file) ".pdf" = true ->
           (ApiServer.writable w
              ("uploads/" ++ prefix ++ ApiServer.strftime_stamp t_name ++ "_"
               ++ ApiServer.filename file) = true ->
            ApiServer.status_code r = 200%Z) /\
           (ApiServer.writable w
              ("uploads/" ++ prefix ++ ApiServer.strftime_stamp t_name ++ "_"
               ++ ApiServer.filename file) = false ->
            ApiServer.status_code r = 500%Z))).

(** *** A file system with the upload folder and nothing else *)

Fixpoint has_slash (p : string) : bool :=
  match p with
  | EmptyString => false
  | String c t => Ascii.eqb c "/" || has_slash t
  end.

(** [p[:p.rfind('/') + 1]] *)
Fixpoint head_to_last_slash (p : string) : string :=
  match p with
  | EmptyString => EmptyString
  | String c t => if has_slash p then String c (head_to_last_slash t) else EmptyString
  end.

(** [s.rstrip('/')] *)
Fixpoint rstrip_slash (s : string) : string :=
  match s with
  | EmptyString => EmptyString
  | String c t =>
      if Ascii.eqb c "/" && String.eqb (rstrip_slash t) "" then EmptyString
      else String c (rstrip_slash t)
  end.

(** [os.path.dirname(p)] *)
Definition dirname (p : string) : string :=
  let head := head_to_last_slash p in
  if String.eqb (rstrip_slash head) "" then head else rstrip_slash head.

(** [open(path, "wb")] where [uploads] is the only directory: it goes through
    exactly for a path right under [uploads]. *)
Definition only_uploads (path : string) : bool := String.eqb (dirname path) "uploads".

(** *** Sample inputs *)

Definition clock0 : ApiServer.datetime :=
  ApiServer.mkDatetime "20260129_101500" "2026-01-29".

Definition world0 : ApiServer.World := ApiServer.mkWorld [] [] only_uploads.

Definition pdf_request : ApiServer.Request :=
  ApiServer.mkRequest [("file", ApiServer.mkFileStorage "order.pdf" "%PDF-1.4")].

Definition txt_request : ApiServer.Request :=
  ApiServer.mkRequest [("file", ApiServer.mkFileStorage "notes.txt" "hello")].

Definition unnamed_request : ApiServer.Request :=
  ApiServer.mkRequest [("file", ApiServer.mkFileStorage "" "")].

Definition empty_request : ApiServer.Request := ApiServer.mkRequest [].

(** Requests as they arrive: a PDF of 1 kB, a PDF whose name has a directory in
    it, and a PDF in a body over the limit. *)
Definition pdf_upload : ApiServer.HttpRequest :=
  ApiServer.mkHttpRequest 1024 [("file", ApiServer.mkFileStorage "order.pdf" "%PDF-1.4")].

Definition slash_upload : ApiServer.HttpRequest :=
  ApiServer.mkHttpRequest 1024 [("file", ApiServer.mkFileStorage "a/b.pdf" "%PDF-1.4")].

Definition huge_upload : ApiServer.HttpRequest :=
  ApiServer.mkHttpRequest (ApiServer.MAX_CONTENT_LENGTH + 1)
    [("file", ApiServer.mkFileStorage "order.pdf" "%PDF-1.4")].

(** *** The raw-extraction schema (section 6 of the specification) *)

Definition INVOICE_FIELDS : list string :=
  ["InvoiceId"; "VendorName"; "InvoiceDate"; "BillingAddressRecipient";
   "ShippingAddress"; "SubTotal"; "ShippingCost"; "InvoiceTotal"; "Tax"; "Items"].

Definition INVOICE_ITEM_FIELDS : list string :=
  ["description"; "category"; "quantity"; "rate"; "amount"].

Definition PO_FIELDS : list string :=
  ["po_number"; "date"; "delivery_date"; "supplier_name"; "company_name";
   "total_amount"; "status"; "items"].

Definition PO_ITEM_FIELDS : list string :=
  ["description"; "quantity"; "unit_price"; "total"].

(** The object [j] binds every key of [fields], and under [items_key] a list of
    objects that each bind every key of [item_fields]. *)
Definition holds_schema (fields : list string) (items_key : string)
    (item_fields : list string) (j : json) : bool :=
  is_dict j && has_keys fields j &&
  match get_list items_key j with
  | Some l => forallb (fun it => is_dict it && has_keys item_fields it) l
  | None => false
  end.

Definition holds_invoice_schema : json -> bool :=
  holds_schema INVOICE_FIELDS "Items" INVOICE_ITEM_FIELDS.

Definition holds_po_schema : json -> bool :=
  holds_schema PO_FIELDS "items" PO_ITEM_FIELDS.

(** The shape the claim on the 200 responses asks of a body: a [filename] field
    and, under [data], an object with the schema's fields. *)
Definition filename_and_data (schema : json -> bool) (body : json) : bool :=
  has_key "filename" body &&
  match get "data" body with
  | Some data => schema data
  | None => false
  end.

(** *** Replies of the mock servers *)

(** The handler has added one response to what was written before it ran, with
    this status and this JSON body. *)
Definition answers (out before : list MockAPIHandler.HttpResponse)
    (status : Z) (body : json) : Prop :=
  exists hs, out = (before ++ [MockAPIHandler.mkHttpResponse status hs body])%list.

(** [{"data": {"name": name, "docstatus": docstatus, ...}}] *)
Definition names_document (body : json) (name : string) (docstatus : Z) : Prop :=
  exists data,
    get "data" body = Some data /\
    get "name" data = Some (JStr name) /\
    get "docstatus" data = Some (JInt docstatus).

(** A reply to a create call: status 200, a name with the prefix, docstatus 0. *)
Definition created_reply (prefix : string) (out before : list MockAPIHandler.HttpResponse)
  : Prop :=
  exists body name,
    answers out before 200 body /\
    names_document body name 0 /\
    Py.startswith name prefix = true.

(** A reply to a submit call: status 200, a name, docstatus 1. *)
Definition submitted_reply (out before : list MockAPIHandler.HttpResponse) : Prop :=
  exists body name,
    answers out before 200 body /\ names_document body name 1.

(** Scenario 1 of the specification. *)
Definition scenario1 (d : Invoice.Document) : Prop :=
  exists it,
    Invoice.items d = [it] /\
    (Invoice.quantity it == 2)%Q /\ (Invoice.rate it == 100)%Q /\
    (Invoice.shipping_cost d == 15)%Q /\ (Invoice.tax d == 35)%Q /\
    (Invoice.subtotal d == 200)%Q /\ (Invoice.total d == 250)%Q.

(** *** Sample documents of the frontend *)

Definition sample_item (quantity : Q) : Invoice.LineItem :=
  Invoice.mkLineItem "Test Item 1" "Electronics" quantity 100 (quantity * 100).

Definition sample_invoice (company customer : string) (quantity : Q)
  : Frontend.InvoiceDocument :=
  Frontend.mkInvoiceDocument "INV-2026-001" "Test Customer" customer company
    "2026-01-29" "2026-02-28" "Test Customer" "123 Test St" "USD"
    [sample_item quantity] 15 35.

Definition sample_po (company supplier : string) : Frontend.PurchaseOrderDocument :=
  Frontend.mkPurchaseOrderDocument "PO-2026-00001" "2026-01-29" "2026-02-15"
    supplier company "USD"
    [Frontend.mkPOLineItem "ITEM-001" "Steel Rod" 10 25] Frontend.Draft.

End Contract.

(** ** More of Python's [str]: [lower], [join] and [str] of an integer *)

Module PyText.

(** [c.lower()] for one character: the ASCII capitals go to their small letters,
    every other byte stays. *)
Definition lower_char (c : ascii) : ascii :=
  let n := nat_of_ascii c in
  if Nat.leb 65 n && Nat.leb n 90 then ascii_of_nat (n + 32) else c.

(** [s.lower()], on text whose capitals are ASCII. *)
Fixpoint lower (s : string) : string :=
  match s with
  | EmptyString => EmptyString
  | String c t => String (lower_char c) (lower t)
  end.

(** [sep.join(l)] *)
Fixpoint join (sep : string) (l : list string) : string :=
  match l with
  | [] => ""
  | [x] => x
  | x :: rest => x ++ sep ++ join sep rest
  end.

(** [str(n)] for an integer. *)
Definition str_of_int (n : Z) : string := NilEmpty.string_of_int (Z.to_int n).

(** [d[k] = v] on a dict kept in insertion order: the value of an existing key is
    replaced where it stands, a new key goes to the end. *)
Fixpoint dict_set {A : Type} (k : string) (v : A) (d : list (string * A))
  : list (string * A) :=
  match d with
  | [] => [(k, v)]
  | (k', v') :: d' =>
      if String.eqb k k' then (k, v) :: d' else (k', v') :: dict_set k v d'
  end.

End PyText.

(** ** The rest of [MockAPIHandler]: the preflight *)

Module MockPreflight.

(** What [do_OPTIONS] puts on the wire: a status line and headers, no body. *)
Record HeadResponse : Type := mkHeadResponse {
  head_status : Z;
  head_headers : list (string * string)
}.

(** [do_OPTIONS] *)
Definition do_OPTIONS (wfile : list HeadResponse) : list HeadResponse :=
  (wfile ++
   [mkHeadResponse 200
      [("Access-Control-Allow-Origin", "*");
       ("Access-Control-Allow-Methods", "GET, POST, PUT, OPTIONS");
       ("Access-Control-Allow-Headers", "Content-Type, Authorization")]])%list.

End MockPreflight.

(** ** [src/tests/utils/api_checker.py] *)

Module ApiChecker.

(** An exception raised by [requests.get], by what the [except] clauses of
    [check_api_availability] ask of it: whether it is an instance of
    [requests.exceptions.ConnectionError], whether it is an instance of
    [requests.exceptions.Timeout], and its [str]. *)
Record RequestException : Type := mkRequestException {
  is_ConnectionError : bool;
  is_Timeout : bool;
  exception_str : string
}.

(** How a call of [requests.get(url, timeout=timeout)] ends. *)
Inductive GetOutcome : Type :=
| Responded (status_code : Z)
| Raised (e : RequestException).

(** The network, as [requests.get] sees it: the outcome for a URL and a timeout. *)
Definition Network : Type := string -> Z -> GetOutcome.

(** [check_api_availability(url, timeout)] *)
Definition check_api_availability (requests_get : Network) (url : string) (timeout : Z)
  : bool * string :=
  match requests_get url timeout with
  | Responded status_code =>
      if Z.ltb status_code 500 then (true, "API at " ++ url ++ " is reachable")
      else (false, "API at " ++ url ++ " returned " ++ PyText.str_of_int status_code)
  | Raised e =>
      if is_ConnectionError e then
        (false, "Cannot connect to " ++ url ++ " - Connection refused")
      else if is_Timeout e then
        (false, "Timeout connecting to " ++ url)
      else
        (false, "Error checking " ++ url ++ ": " ++ exception_str e)
  end.

(** The default of the [timeout] argument. *)
Definition DEFAULT_TIMEOUT : Z := 5.

(** [check_erpnext_availability(base_url)] *)
Definition check_erpnext_availability (requests_get : Network) (base_url : string)
  : bool * string :=
  check_api_availability requests_get
    (base_url ++ "/api/method/frappe.auth.get_logged_user") DEFAULT_TIMEOUT.

(** [check_pdf_api_availability(base_url)] *)
Definition check_pdf_api_availability (requests_get : Network) (base_url : string)
  : bool * string :=
  check_api_availability requests_get (base_url ++ "/health") DEFAULT_TIMEOUT.

(** [check_ui_availability(base_url)] *)
Definition check_ui_availability (requests_get : Network) (base_url : string)
  : bool * string :=
  check_api_availability requests_get base_url DEFAULT_TIMEOUT.

End ApiChecker.

(** ** The browser loop of the test classes and the checks of the integration test

    [_run_test_on_all_browsers] is the same method in
    [src/tests/test_invoice_integration.py], [src/tests/test_invoice_mocked.py] and
    [src/tests/test_po_mocked.py]. *)

Module BrowserRuns.

(** What a test function can raise, by what the loop's [except AssertionError]
    asks of it: an [AssertionError] with its [str], [unittest.SkipTest] with its
    reason, or any other exception, by name. *)
Inductive Exception : Type :=
| AssertionError (message : string)
| SkipTest (reason : string)
| OtherException (name : string).

Definition is_assertion (e : Exception) : bool :=
  match e with AssertionError _ => true | _ => false end.

(** The loop of [_run_test_on_all_browsers] over [self.pages.items()], with the
    dict [results] built so far; [test_func page] is [None] when the call returns
    and the exception it raises otherwise.  An exception that is no
    [AssertionError] leaves the loop and the method. *)
Fixpoint run_pages {Page : Type} (test_func : Page -> option Exception)
    (pages : list (string * Page)) (results : list (string * string))
  : Exception + list (string * string) :=
  match pages with
  | [] => inr results
  | (browser_name, page) :: rest =>
      match test_func page with
      | None => run_pages test_func rest (PyText.dict_set browser_name "PASS" results)
      | Some (AssertionError e) =>
          run_pages test_func rest
            (PyText.dict_set browser_name ("FAIL: " ++ e) results)
      | Some other => inl other
      end
  end.

(** The list [failures] of the method. *)
Definition failures_of (results : list (string * string)) : list string :=
  map (fun entry => fst entry ++ ": " ++ snd entry)
      (filter (fun entry => negb (String.eqb (snd entry) "PASS")) results).

(** [_run_test_on_all_browsers(test_func)]: [None] when the method returns, the
    exception that leaves it otherwise. *)
Definition _run_test_on_all_browsers {Page : Type}
    (test_func : Page -> option Exception) (pages : list (string * Page))
  : option Exception :=
  match run_pages test_func pages [] with
  | inl e => Some e
  | inr results =>
      match failures_of results with
      | [] => None
      | failures =>
          Some (AssertionError
                  ("Test failed on browsers: " ++ PyText.join ", " failures))
      end
  end.

(** What [test_logic] of [test_real_erpnext_invoice_creation] reads off the page
    once the form is submitted and the wait is over. *)
Record Submitted : Type := mkSubmitted {
  has_success_message : bool;
  has_error_message : bool;
  has_warning_message : bool;
  error_text : string;
  warning_text : string;
  erpnext_invoice_number : string
}.

(** [self.assertTrue(False, msg)] raises with this text (unittest's long
    messages, which are on by default). *)
Definition assertTrue_message (msg : string) : string := "False is not true : " ++ msg.

(** The checks of [test_logic] in [test_real_erpnext_invoice_creation], from the
    reading of the three message areas on: the lines it prints and how it ends. *)
Definition test_logic (p : Submitted) : list string * option Exception :=
  let has_success := has_success_message p in
  let has_error := has_error_message p in
  let has_warning := has_warning_message p in
  let out : list string :=
    if has_error then ["
⚠️ ERPNext Error: " ++ error_text p] else [] in
  if has_error && Py.str_in "currency" (PyText.lower (error_text p)) then
    (out, Some (SkipTest ("Currency mismatch error: " ++ error_text p)))
  else if has_error then
    (out, Some (AssertionError ("Unexpected ERPNext error: " ++ error_text p)))
  else
    let out : list string :=
      if has_warning then List.app out ["
⚠️ Warning: " ++ warning_text p] else out in
    if negb has_success then
      (out,
       Some (AssertionError
               (assertTrue_message
                  "Success message should appear after submitting to real ERPNext")))
    else
      let invoice_number := erpnext_invoice_number p in
      if negb (Py.startswith invoice_number "SINV-"
               || Py.startswith invoice_number "ACC-SINV-") then
        (out,
         Some (AssertionError
                 (assertTrue_message
                    ("ERPNext should return valid invoice number, got: "
                     ++ invoice_number))))
      else
        (List.app out ["
✓ Successfully created invoice: " ++ invoice_number], None).

End BrowserRuns.

(** ** The route stubs of [src/tests/test_invoice_mocked.py] *)

Module RouteStubs.

(** The request a Playwright route handler is given. *)
Record RouteRequest : Type := mkRouteRequest {
  url : string;
  method : string
}.

(** What a handler does with the route: [route.fulfill(status, content_type,
    body)], the body as the JSON value its text denotes, or [route.continue_()]. *)
Inductive RouteAction : Type :=
| Fulfill (status : Z) (content_type : string) (body : json)
| Continue.

Open Scope Z_scope.

(** [handle_all_requests] *)
Definition handle_all_requests (request : RouteRequest) : RouteAction :=
  if negb (Py.str_in "localhost:3000" (url request))
     && Py.str_in "localhost" (url request) then
    Fulfill 200 "application/json" (JDict [("data", JDict [])])
  else Continue.

(** [handle_company_check] *)
Definition handle_company_check (request : RouteRequest) : RouteAction :=
  if Py.str_in "/api/resource/Company" (url request)
     && String.eqb (method request) "GET" then
    Fulfill 200 "application/json"
      (JDict [("data", JDict [("name", JStr "DEMO"); ("default_currency", JStr "USD")])])
  else if Py.str_in "Company" (url request) then
    Fulfill 200 "application/json"
      (JDict [("data", JDict [("name", JStr "DEMO"); ("default_currency", JStr "USD")])])
  else Continue.

(** [handle_customer_check] *)
Definition handle_customer_check (request : RouteRequest) : RouteAction :=
  if String.eqb (method request) "GET"
     && Py.str_in "/api/resource/Customer/" (url request) then
    Fulfill 404 "application/json" (JDict [("exc", JStr "Not Found")])
  else Continue.

(** [handle_customer_create] *)
Definition handle_customer_create (request : RouteRequest) : RouteAction :=
  if String.eqb (method request) "POST" && Py.str_in "Customer" (url request) then
    Fulfill 200 "application/json" (JDict [("data", JDict [("name", JStr "Test Customer")])])
  else Continue.

(** [handle_item_check] *)
Definition handle_item_check (request : RouteRequest) : RouteAction :=
  if String.eqb (method request) "GET"
     && Py.str_in "/api/resource/Item/" (url request) then
    Fulfill 404 "application/json" (JDict [("exc", JStr "Not Found")])
  else Continue.

(** [handle_item_create] *)
Definition handle_item_create (request : RouteRequest) : RouteAction :=
  if String.eqb (method request) "POST" && Py.str_in "/Item" (url request) then
    Fulfill 200 "application/json" (JDict [("data", JDict [("name", JStr "TEST-ITEM-001")])])
  else Continue.

(** [handle_invoice_create] *)
Definition handle_invoice_create (request : RouteRequest) : RouteAction :=
  if String.eqb (method request) "POST"
     && Py.str_in "Sales Invoice" (url request) then
    Fulfill 200 "application/json"
      (JDict [("data", JDict [("name", JStr "SINV-2026-00001"); ("docstatus", JInt 0)])])
  else Continue.

(** [handle_invoice_submit] *)
Definition handle_invoice_submit (request : RouteRequest) : RouteAction :=
  if String.eqb (method request) "PUT" && Py.str_in "SINV-" (url request) then
    Fulfill 200 "application/json"
      (JDict [("data", JDict [("name", JStr "SINV-2026-00001"); ("docstatus", JInt 1)])])
  else Continue.

End RouteStubs.

(** ** Predicates and samples for the further properties *)

Module More.

(** The file that a handler of [src/api_server.py] saves for an accepted upload:
    [prefix] is ["invoice_"] or ["po_"]. *)
Definition saved_name (prefix : string) (t_name : ApiServer.datetime)
    (file : ApiServer.FileStorage) : string :=
  prefix ++ ApiServer.strftime_stamp t_name ++ "_" ++ ApiServer.filename file.

Definition saved_path (name : string) : string := "uploads/" ++ name.

(** The three CORS headers of the mock servers. *)
Definition CORS_HEADERS : list (string * string) :=
  [("Access-Control-Allow-Origin", "*");
   ("Access-Control-Allow-Methods", "GET, POST, PUT, OPTIONS");
   ("Access-Control-Allow-Headers", "Content-Type, Authorization")].

(** The last response a handler has written. *)
Definition last_response (out : list MockAPIHandler.HttpResponse)
  : option MockAPIHandler.HttpResponse :=
  last (map Some out) None.

(** How the browser loop records one call of the test function. *)
Definition recorded (outcome : option BrowserRuns.Exception) : string :=
  match outcome with
  | Some (BrowserRuns.AssertionError e) => "FAIL: " ++ e
  | _ => "PASS"
  end.

(** The call ends the loop: it raises something that is no [AssertionError]. *)
Definition escapes (outcome : option BrowserRuns.Exception) : bool :=
  match outcome with
  | Some e => negb (BrowserRuns.is_assertion e)
  | None => false
  end.

(** Sample runs of a test function on three browsers. *)
Inductive SamplePage : Type := PageOk | PageBroken | PageCurrency.

Definition sample_test (p : SamplePage) : option BrowserRuns.Exception :=
  match p with
  | PageOk => None
  | PageBroken => Some (BrowserRuns.AssertionError "Total should be calculated correctly")
  | PageCurrency => Some (BrowserRuns.SkipTest "Currency mismatch error: currency")
  end.

Definition sample_network : ApiChecker.Network :=
  fun url timeout =>
    if String.eqb url "http://localhost:8080/api/method/frappe.auth.get_logged_user"
    then ApiChecker.Responded 403
    else if String.eqb url "http://localhost:8000/health"
    then ApiChecker.Responded 503
    else ApiChecker.Raised (ApiChecker.mkRequestException true true "timed out").

Definition sample_upload (name content : string) : ApiServer.Request :=
  ApiServer.mkRequest [("file", ApiServer.mkFileStorage name content)].

(** What the browser loop writes into [results] for a page. *)
Definition entry {Page : Type} (test_func : Page -> option BrowserRuns.Exception)
    (np : string * Page) : string * string :=
  (fst np, recorded (test_func (snd np))).

(** The call on this page stays in the loop. *)
Definition contained {Page : Type} (test_func : Page -> option BrowserRuns.Exception)
    (np : string * Page) : Prop :=
  escapes (test_func (snd np)) = false.

(** The call on this page raised an [AssertionError]. *)
Definition failed {Page : Type} (test_func : Page -> option BrowserRuns.Exception)
    (np : string * Page) : bool :=
  match test_func (snd np) with
  | Some (BrowserRuns.AssertionError _) => true
  | _ => false
  end.

(** The page's item in the list [failures]. *)
Definition failure_line {Page : Type} (test_func : Page -> option BrowserRuns.Exception)
    (np : string * Page) : string :=
  fst np ++ ": " ++ recorded (test_func (snd np)).

End More.

(** * Theorems *)

(** ** Python's [in], [endswith] and [startswith] *)

Module PyFacts.

Lemma prefix_iff (p s : string) :
  String.prefix p s = true <-> exists q, s = p ++ q.
Proof.
  revert s; induction p as [|c p IH]; intros s.
  - split; [intros _; now exists s | intros _; now destruct s].
  - destruct s as [|c' s]; simpl.
    + split; [discriminate | intros [q H]; discriminate].
    + destruct (Ascii.ascii_dec c c') as [Heq|Hne].
      * subst c'. rewrite IH. split; intros [q H]; exists q.
        -- now rewrite H.
        -- now inversion H.
      * split; [discriminate | intros [q H]; inversion H; congruence].
Qed.

Lemma str_in_nil (sub : string) :
  Py.str_in sub "" = String.prefix sub "" || false.
Proof. reflexivity. Qed.

Lemma str_in_cons (sub : string) (c : ascii) (s : string) :
  Py.str_in sub (String c s) = String.prefix sub (String c s) || Py.str_in sub s.
Proof. reflexivity. Qed.

Lemma str_in_iff (sub s : string) :
  Py.str_in sub s = true <-> exists p q, s = p ++ sub ++ q.
Proof.
  induction s as [|c s IH].
  - rewrite str_in_nil, orb_false_r, prefix_iff. split.
    + intros [q H]. now exists "", q.
    + intros [p [q H]]. destruct p; [now exists q | discriminate].
  - rewrite str_in_cons, orb_true_iff, prefix_iff, IH. split.
    + intros [[q H] | [p [q H]]].
      * now exists "", q.
      * exists (String c p), q. simpl. now rewrite H.
    + intros [p [q H]]. destruct p as [|c' p]; simpl in H.
      * left. now exists q.
      * right. exists p, q. now inversion H.
Qed.

Lemma endswith_nil (suf : string) :
  Py.endswith "" suf = String.eqb "" suf || false.
Proof. reflexivity. Qed.

Lemma endswith_cons (c : ascii) (s suf : string) :
  Py.endswith (String c s) suf = String.eqb (String c s) suf || Py.endswith s suf.
Proof. reflexivity. Qed.

Lemma endswith_iff (s suf : string) :
  Py.endswith s suf = true <-> exists p, s = p ++ suf.
Proof.
  induction s as [|c s IH].
  - rewrite endswith_nil, orb_false_r, String.eqb_eq. split.
    + intros <-. now exists "".
    + intros [p H]. destruct p; [assumption | discriminate].
  - rewrite endswith_cons, orb_true_iff, String.eqb_eq, IH. split.
    + intros [H | [p H]].
      * now exists "".
      * exists (String c p). simpl. now rewrite H.
    + intros [p H]. destruct p as [|c' p]; simpl in H.
      * now left.
      * right. exists p. now inversion H.
Qed.

(** A path that has the longer marker has the shorter one it ends with. *)
Lemma str_in_app_l (a b s : string) :
  Py.str_in (a ++ b) s = true -> Py.str_in b s = true.
Proof.
  rewrite !str_in_iff. intros [p [q H]].
  exists (p ++ a), q. rewrite H.
  clear H. induction p as [|c p IH]; simpl.
  - induction a as [|c a IHa]; simpl; [reflexivity | now rewrite IHa].
  - now rewrite IH.
Qed.

End PyFacts.

(** ** The Flask upload handlers *)

Module ApiServerFacts.

Import Contract.

(** The three checks, read off the request. *)
Ltac split_checks request :=
  destruct (assoc "file" (ApiServer.files request)) as [file|] eqn:Hfile;
  [ destruct (String.eqb (ApiServer.filename file) "") eqn:Hname;
    [ apply String.eqb_eq in Hname
    | apply String.eqb_neq in Hname;
      destruct (Py.endswith (ApiServer.filename file) ".pdf") eqn:Hext ]
  | ].

(** Facts about the request the predicates speak of, brought back to [file]. *)
Ltac same_file :=
  repeat match goal with
  | H : no_file_part _ |- _ => unfold no_file_part in H
  | H : empty_filename _ |- _ => destruct H as [? [? ?]]
  | H : not_pdf_filename _ |- _ => destruct H as [? [? ?]]
  | H : _ \/ _ |- _ => destruct H
  | H1 : assoc "file" ?l = Some ?f, H2 : assoc "file" ?l = Some ?g |- _ =>
      rewrite H1 in H2; inversion H2; subst; clear H2
  | H1 : assoc "file" ?l = Some ?f, H2 : assoc "file" ?l = None |- _ =>
      rewrite H1 in H2; discriminate
  end.

(** The ways a case of the contract closes. *)
Ltac settle :=
  first [ reflexivity | discriminate | congruence
        | now eexists
        | left; assumption
        | right; left; eexists; split; eassumption
        | right; right; eexists; split; eassumption
        | exfalso;
          match goal with
          | H : ~ empty_filename _ |- _ => apply H; eexists; split; eassumption
          end ].

Lemma rejection_cases (request : ApiServer.Request) :
  (no_file_part request \/ empty_filename request \/ not_pdf_filename request) \/
  (exists file,
      assoc "file" (ApiServer.files request) = Some file /\
      ApiServer.filename file <> "" /\
      Py.endswith (ApiServer.filename file) ".pdf" = true).
Proof.
  split_checks request.
  - left. right. left. now exists file.
  - right. now exists file.
  - left. right. right. now exists file.
  - left. now left.
Qed.

(** The saved path is under the upload folder, since the saved name starts with
    the kind of the document and not with a separator. *)
Lemma joined_invoice (rest : string) :
  ApiServer.path_join ApiServer.UPLOAD_FOLDER ("invoice_" ++ rest)
  = "uploads/" ++ "invoice_" ++ rest.
Proof. reflexivity. Qed.

Lemma joined_po (rest : string) :
  ApiServer.path_join ApiServer.UPLOAD_FOLDER ("po_" ++ rest)
  = "uploads/" ++ "po_" ++ rest.
Proof. reflexivity. Qed.

Lemma upload_invoice_contract : handler_contract "invoice_" ApiServer.upload_invoice.
Proof.
  intros t_name t_date request w.
  unfold ApiServer.upload_invoice, ApiServer.status_code, ApiServer.body, error_body.
  split_checks request; cbn [negb fst snd]; cbv zeta;
    try (rewrite joined_invoice; unfold ApiServer.save;
         destruct (ApiServer.writable w
                     ("uploads/" ++ "invoice_" ++ ApiServer.strftime_stamp t_name
                      ++ "_" ++ ApiServer.filename file)) eqn:Hw;
         cbn [fst snd]);
    (repeat split; intros; same_file; settle).
Qed.

Lemma upload_po_contract : handler_contract "po_" ApiServer.upload_po.
Proof.
  intros t_name t_date request w.
  unfold ApiServer.upload_po, ApiServer.status_code, ApiServer.body, error_body.
  split_checks request; cbn [negb fst snd]; cbv zeta;
    try (rewrite joined_po; unfold ApiServer.save;
         destruct (ApiServer.writable w
                     ("uploads/" ++ "po_" ++ ApiServer.strftime_stamp t_name
                      ++ "_" ++ ApiServer.filename file)) eqn:Hw;
         cbn [fst snd]);
    (repeat split; intros; same_file; settle).
Qed.

(** A route is its handler behind the limit on the length of the body. *)
Lemma route_from_handler (prefix : string)
    (route : ApiServer.datetime -> ApiServer.datetime -> ApiServer.HttpRequest ->
             ApiServer.World -> ApiServer.Result * ApiServer.World)
    (handler : ApiServer.datetime -> ApiServer.datetime -> ApiServer.Request ->
               ApiServer.World -> ApiServer.Result * ApiServer.World) :
  (forall t_name t_date h w,
      route t_name t_date h w =
      match ApiServer.request_files h with
      | inl e => (inr e, w)
      | inr request => handler t_name t_date request w
      end) ->
  handler_contract prefix handler -> route_contract prefix route.
Proof.
  intros Hroute Hhandler t_name t_date h w r request. subst r.
  rewrite Hroute. unfold ApiServer.request_files.
  destruct (Z.ltb ApiServer.MAX_CONTENT_LENGTH (ApiServer.content_length h)) eqn:E.
  - apply Z.ltb_lt in E. split; [reflexivity | intros Hle; lia].
  - apply Z.ltb_ge in E. split; [intros Hlt; lia | intros _].
    exact (Hhandler t_name t_date request w).
Qed.

(** C3, as stated, fails past the three checks.  A PDF whose name has a directory
    in it, [a/b.pdf], passes them: the request has a file part, the name is not
    empty and it ends with [.pdf].  The handler then saves to
    [uploads/invoice_<stamp>_a/b.pdf], in a directory that does not exist where
    [uploads] is the only one, [file.save] raises, and the request ends in 500
    and not in 200.  And a PDF in a body over the limit ends in 413. *)
Lemma upload_into_missing_directory :
  (ApiServer.content_length slash_upload <= ApiServer.MAX_CONTENT_LENGTH)%Z /\
  ~ (no_file_part (ApiServer.mkRequest (ApiServer.parts slash_upload)) \/
     empty_filename (ApiServer.mkRequest (ApiServer.parts slash_upload)) \/
     not_pdf_filename (ApiServer.mkRequest (ApiServer.parts slash_upload))) /\
  ApiServer.writable world0 "uploads/invoice_20260129_101500_a/b.pdf" = false /\
  ApiServer.route_upload_invoice clock0 clock0 slash_upload world0
    = (inr (ApiServer.OSError "uploads/invoice_20260129_101500_a/b.pdf"), world0) /\
  ApiServer.status_code (ApiServer.route_upload_invoice clock0 clock0 slash_upload world0)
    = 500%Z /\
  ApiServer.status_code (ApiServer.route_upload_po clock0 clock0 slash_upload world0)
    = 500%Z /\
  ApiServer.status_code (ApiServer.route_upload_invoice clock0 clock0 huge_upload world0)
    = 413%Z.
Proof.
  split; [vm_compute; discriminate|].
  split.
  - intros [H | [[file [Hf Hn]] | [file [Hf He]]]].
    + discriminate H.
    + cbn in Hf. inversion Hf; subst file. discriminate Hn.
    + cbn in Hf. inversion Hf; subst file. discriminate He.
  - repeat split; reflexivity.
Qed.

(** C3, amended.  On either Flask upload route, a request whose body is within the
    limit of 16 MB is answered 400 with a body [{"error": message}] exactly when
    it has no [file] part, or the file's name is empty, or the name does not end
    with [.pdf]; the conditions are tested in that order, so a missing part gives
    "No file provided", an empty name gives "No file selected" (although it does
    not end with [.pdf] either) and only a non-empty name with another extension
    gives "Only PDF files are accepted".  In every other case within the limit
    the answer is 200 when [file.save] can write
    [uploads/<invoice_ or po_><stamp>_<name>], and the request ends in 500 when
    [file.save] raises.  A request whose body is over the limit ends in 413. *)
Theorem upload_rejects_in_order :
  route_contract "invoice_" ApiServer.route_upload_invoice /\
  route_contract "po_" ApiServer.route_upload_po.
Proof.
  split.
  - apply (route_from_handler "invoice_" _ ApiServer.upload_invoice);
      [reflexivity | apply upload_invoice_contract].
  - apply (route_from_handler "po_" _ ApiServer.upload_po);
      [reflexivity | apply upload_po_contract].
Qed.

Lemma upload_rejects_in_order_witness :
  ApiServer.status_code (ApiServer.route_upload_invoice clock0 clock0 pdf_upload world0)
    = 200%Z /\
  ApiServer.status_code (ApiServer.route_upload_po clock0 clock0 slash_upload world0)
    = 500%Z /\
  ApiServer.status_code (ApiServer.route_upload_po clock0 clock0 huge_upload world0)
    = 413%Z.
Proof.
  split; [|split].
  - destruct (proj1 upload_rejects_in_order clock0 clock0 pdf_upload world0) as [_ H].
    destruct H as (_ & _ & _ & _ & _ & Hpast); [vm_compute; discriminate|].
    apply (Hpast (ApiServer.mkFileStorage "order.pdf" "%PDF-1.4"));
      [reflexivity | discriminate | reflexivity | reflexivity].
  - destruct (proj2 upload_rejects_in_order clock0 clock0 slash_upload world0) as [_ H].
    destruct H as (_ & _ & _ & _ & _ & Hpast); [vm_compute; discriminate|].
    apply (Hpast (ApiServer.mkFileStorage "a/b.pdf" "%PDF-1.4"));
      [reflexivity | discriminate | reflexivity | reflexivity].
  - apply (proj1 (proj2 upload_rejects_in_order clock0 clock0 huge_upload world0)).
    reflexivity.
Defined.

(** The kinds of request, run. *)
Example upload_po_examples :
  fst (ApiServer.upload_po clock0 clock0 empty_request world0)
    = inl (error_body "No file provided", 400%Z) /\
  fst (ApiServer.upload_po clock0 clock0 unnamed_request world0)
    = inl (error_body "No file selected", 400%Z) /\
  fst (ApiServer.upload_po clock0 clock0 txt_request world0)
    = inl (error_body "Only PDF files are accepted", 400%Z) /\
  ApiServer.status_code (ApiServer.upload_po clock0 clock0 pdf_request world0) = 200%Z.
Proof. repeat split. Qed.

End ApiServerFacts.

(** ** The extraction bodies and their derived fields *)

Module ExtractionFacts.

Import Contract.

(** A goal on numbers that are all known. *)
Ltac by_computation := vm_compute; first [ reflexivity | discriminate ].

(** The equations of a document whose items are listed. *)
Ltac derived_fields :=
  repeat match goal with
  | |- _ /\ _ => split
  | |- Forall _ _ => constructor
  | |- Invoice.derived _ => unfold Invoice.derived
  | |- Invoice.exact _ => unfold Invoice.exact
  | |- PO.items_derived _ => unfold PO.items_derived
  | |- PO.items_exact _ => unfold PO.items_exact
  | |- (_ == _)%Q => by_computation
  | |- Invoice.item_derived _ => by_computation
  | |- Invoice.item_exact _ => by_computation
  | |- PO.item_derived _ => by_computation
  | |- PO.item_exact _ => by_computation
  end.

(** A Flask handler answers 200 only past its three checks. *)
Lemma upload_invoice_200 (t_name t_date : ApiServer.datetime)
    (request : ApiServer.Request) (w : ApiServer.World) :
  ApiServer.status_code (ApiServer.upload_invoice t_name t_date request w) = 200%Z ->
  exists file,
    assoc "file" (ApiServer.files request) = Some file /\
    String.eqb (ApiServer.filename file) "" = false /\
    Py.endswith (ApiServer.filename file) ".pdf" = true /\
    ApiServer.writable w
      ("uploads/" ++ "invoice_" ++ ApiServer.strftime_stamp t_name ++ "_"
       ++ ApiServer.filename file) = true.
Proof.
  unfold ApiServer.upload_invoice, ApiServer.status_code.
  destruct (assoc "file" (ApiServer.files request)) as [file|]; [|discriminate].
  destruct (String.eqb (ApiServer.filename file) "") eqn:Hname; [discriminate|].
  destruct (Py.endswith (ApiServer.filename file) ".pdf") eqn:Hext; [|discriminate].
  cbn [negb]. cbv zeta. rewrite ApiServerFacts.joined_invoice. unfold ApiServer.save.
  destruct (ApiServer.writable w
              ("uploads/" ++ "invoice_" ++ ApiServer.strftime_stamp t_name ++ "_"
               ++ ApiServer.filename file)) eqn:Hw; [|discriminate].
  intros _. exists file. repeat split; assumption.
Qed.

Lemma upload_po_200 (t_name t_date : ApiServer.datetime)
    (request : ApiServer.Request) (w : ApiServer.World) :
  ApiServer.status_code (ApiServer.upload_po t_name t_date request w) = 200%Z ->
  exists file,
    assoc "file" (ApiServer.files request) = Some file /\
    String.eqb (ApiServer.filename file) "" = false /\
    Py.endswith (ApiServer.filename file) ".pdf" = true /\
    ApiServer.writable w
      ("uploads/" ++ "po_" ++ ApiServer.strftime_stamp t_name ++ "_"
       ++ ApiServer.filename file) = true.
Proof.
  unfold ApiServer.upload_po, ApiServer.status_code.
  destruct (assoc "file" (ApiServer.files request)) as [file|]; [|discriminate].
  destruct (String.eqb (ApiServer.filename file) "") eqn:Hname; [discriminate|].
  destruct (Py.endswith (ApiServer.filename file) ".pdf") eqn:Hext; [|discriminate].
  cbn [negb]. cbv zeta. rewrite ApiServerFacts.joined_po. unfold ApiServer.save.
  destruct (ApiServer.writable w
              ("uploads/" ++ "po_" ++ ApiServer.strftime_stamp t_name ++ "_"
               ++ ApiServer.filename file)) eqn:Hw; [|discriminate].
  intros _. exists file. repeat split; assumption.
Qed.

(** The handler past its checks and its save: the facts of the lemmas above, put
    to use. *)
Ltac accepted_invoice Hfile Hname Hext Hw :=
  unfold ApiServer.upload_invoice; rewrite Hfile, Hname, Hext; cbn [negb]; cbv zeta;
  rewrite ApiServerFacts.joined_invoice; unfold ApiServer.save; rewrite Hw.

Ltac accepted_po Hfile Hname Hext Hw :=
  unfold ApiServer.upload_po; rewrite Hfile, Hname, Hext; cbn [negb]; cbv zeta;
  rewrite ApiServerFacts.joined_po; unfold ApiServer.save; rewrite Hw.

(** The mock server's two extraction branches. *)
Lemma do_POST_upload_invoice (path : string) (w : list MockAPIHandler.HttpResponse) :
  Py.str_in "/upload/invoice" path = true ->
  answers (MockAPIHandler.do_POST path w) w 200 MockAPIHandler.invoice_payload.
Proof.
  intros H. unfold MockAPIHandler.do_POST. rewrite H.
  eexists. reflexivity.
Qed.

Lemma do_POST_upload_po (path : string) (w : list MockAPIHandler.HttpResponse) :
  Py.str_in "/upload/invoice" path = false ->
  Py.str_in "/upload/po" path = true ->
  answers (MockAPIHandler.do_POST path w) w 200 MockAPIHandler.po_payload.
Proof.
  intros H1 H2. unfold MockAPIHandler.do_POST. rewrite H1, H2.
  eexists. reflexivity.
Qed.

(** C2.  Every 200 body of the Flask invoice handler carries, under [data], a
    document whose item amounts are quantity times rate, whose SubTotal is the sum
    of the amounts and whose InvoiceTotal is SubTotal plus ShippingCost plus Tax,
    with and without rounding to two places; the mock server's invoice branch
    answers with such a document too, and that one is Scenario 1: one item of
    quantity 2 at rate 100, shipping 15, tax 35, SubTotal 200, InvoiceTotal 250. *)
Theorem invoice_bodies_are_derived :
  (forall t_name t_date request w,
      let r := ApiServer.upload_invoice t_name t_date request w in
      ApiServer.status_code r = 200%Z ->
      exists data d,
        get "data" (ApiServer.body r) = Some data /\
        Invoice.of_json data = Some d /\
        Invoice.derived d /\ Invoice.exact d) /\
  (forall path w,
      Py.str_in "/upload/invoice" path = true ->
      exists body data d,
        answers (MockAPIHandler.do_POST path w) w 200 body /\
        get "data" body = Some data /\
        Invoice.of_json data = Some d /\
        Invoice.derived d /\ Invoice.exact d /\ scenario1 d).
Proof.
  split.
  - intros t_name t_date request w r H200.
    destruct (upload_invoice_200 _ _ _ _ H200) as [file [Hfile [Hname [Hext Hw]]]].
    subst r. unfold ApiServer.body. accepted_invoice Hfile Hname Hext Hw.
    cbn [fst].
    eexists. eexists.
    split; [reflexivity|].
    split; [vm_compute; reflexivity|].
    derived_fields.
  - intros path w H.
    exists MockAPIHandler.invoice_payload. eexists. eexists.
    split; [now apply do_POST_upload_invoice|].
    split; [reflexivity|].
    split; [vm_compute; reflexivity|].
    split; [derived_fields|].
    split; [derived_fields|].
    eexists. split; [reflexivity|]. derived_fields.
Qed.

Lemma invoice_bodies_are_derived_witness :
  exists data d,
    get "data"
      (ApiServer.body (ApiServer.upload_invoice clock0 clock0 pdf_request world0))
      = Some data /\
    Invoice.of_json data = Some d /\
    Invoice.derived d /\ Invoice.exact d.
Proof.
  apply (proj1 invoice_bodies_are_derived clock0 clock0 pdf_request world0).
  reflexivity.
Defined.

(** C1, as stated, fails on both bodies.  The Flask handler's purchase order has
    item totals 750, 750 and 320, which sum to 1820, under a [total_amount] of
    1520; the mock server's has one item total of 250 under a [total_amount] of
    292.50. *)
Lemma po_total_amount_is_not_the_item_sum :
  (let r := ApiServer.upload_po clock0 clock0 pdf_request world0 in
   ApiServer.status_code r = 200%Z /\
   exists d,
     PO.of_json (ApiServer.body r) = Some d /\
     (PO.items_total d == 1820)%Q /\ (PO.total_amount d == 1520)%Q /\
     ~ PO.total_derived d) /\
  (exists d,
     answers (MockAPIHandler.do_POST "/upload/po" []) [] 200 MockAPIHandler.po_payload /\
     PO.of_json MockAPIHandler.po_payload = Some d /\
     (PO.items_total d == 250)%Q /\ (PO.total_amount d == 292.5)%Q /\
     ~ PO.total_derived d).
Proof.
  split.
  - split; [reflexivity|].
    eexists. split; [vm_compute; reflexivity|].
    split; [by_computation|]. split; [by_computation|].
    unfold PO.total_derived. by_computation.
  - eexists. split; [eexists; reflexivity|].
    split; [vm_compute; reflexivity|].
    split; [by_computation|]. split; [by_computation|].
    unfold PO.total_derived. by_computation.
Qed.

(** C1, amended.  In every 200 body of the Flask purchase-order handler and in the
    answer of the mock server's [/upload/po] branch, each line item's total is its
    quantity times its unit price, with and without rounding to two places.  The
    [total_amount] is a constant of the body and not the sum of the item totals:
    the mock server's is 292.50 over item totals of 250.00, that is 1.17 times
    their sum. *)
Theorem po_item_totals_are_derived :
  (forall t_name t_date request w,
      let r := ApiServer.upload_po t_name t_date request w in
      ApiServer.status_code r = 200%Z ->
      exists d,
        PO.of_json (ApiServer.body r) = Some d /\
        PO.items_derived d /\ PO.items_exact d) /\
  (forall path w,
      Py.str_in "/upload/invoice" path = false ->
      Py.str_in "/upload/po" path = true ->
      exists body d,
        answers (MockAPIHandler.do_POST path w) w 200 body /\
        PO.of_json body = Some d /\
        PO.items_derived d /\ PO.items_exact d /\
        (PO.total_amount d == 292.5)%Q /\
        (PO.items_total d == 250)%Q /\
        (PO.total_amount d == PO.items_total d * 1.17)%Q).
Proof.
  split.
  - intros t_name t_date request w r H200.
    destruct (upload_po_200 _ _ _ _ H200) as [file [Hfile [Hname [Hext Hw]]]].
    subst r. unfold ApiServer.body. accepted_po Hfile Hname Hext Hw.
    cbn [fst].
    eexists.
    split; [vm_compute; reflexivity|].
    derived_fields.
  - intros path w H1 H2.
    exists MockAPIHandler.po_payload. eexists.
    split; [now apply do_POST_upload_po|].
    split; [vm_compute; reflexivity|].
    derived_fields.
Qed.

Lemma po_item_totals_are_derived_witness :
  exists d,
    PO.of_json (ApiServer.body (ApiServer.upload_po clock0 clock0 pdf_request world0))
      = Some d /\
    PO.items_derived d /\ PO.items_exact d.
Proof.
  apply (proj1 po_item_totals_are_derived clock0 clock0 pdf_request world0).
  reflexivity.
Defined.

(** C4, as stated, fails on three of the four bodies: the Flask purchase-order body
    has no [data] object, and neither body of the mock server has a [filename]. *)
Lemma upload_bodies_without_filename_or_data :
  (let r := ApiServer.upload_po clock0 clock0 pdf_request world0 in
   ApiServer.status_code r = 200%Z /\
   filename_and_data holds_po_schema (ApiServer.body r) = false /\
   get "data" (ApiServer.body r) = None) /\
  (answers (MockAPIHandler.do_POST "/upload/invoice" []) [] 200
     MockAPIHandler.invoice_payload /\
   filename_and_data holds_invoice_schema MockAPIHandler.invoice_payload = false /\
   get "filename" MockAPIHandler.invoice_payload = None) /\
  (answers (MockAPIHandler.do_POST "/upload/po" []) [] 200 MockAPIHandler.po_payload /\
   filename_and_data holds_po_schema MockAPIHandler.po_payload = false /\
   get "filename" MockAPIHandler.po_payload = None /\
   get "data" MockAPIHandler.po_payload = None).
Proof.
  repeat split; try reflexivity; eexists; reflexivity.
Qed.

(** C4, amended.  Every 200 answer of the upload endpoints is a JSON object that
    holds the extraction schema's fields: an invoice's under [data], on the Flask
    server and on the mock server; a purchase order's at the top level of the
    body, with no [data] object, on both.  The Flask bodies have a [filename]
    field and the mock server's have none. *)
Theorem upload_bodies_hold_the_schema :
  (forall t_name t_date request w,
      let r := ApiServer.upload_invoice t_name t_date request w in
      ApiServer.status_code r = 200%Z ->
      filename_and_data holds_invoice_schema (ApiServer.body r) = true) /\
  (forall t_name t_date request w,
      let r := ApiServer.upload_po t_name t_date request w in
      ApiServer.status_code r = 200%Z ->
      has_key "filename" (ApiServer.body r) = true /\
      holds_po_schema (ApiServer.body r) = true /\
      has_key "data" (ApiServer.body r) = false) /\
  (forall path w,
      Py.str_in "/upload/invoice" path = true ->
      exists body data,
        answers (MockAPIHandler.do_POST path w) w 200 body /\
        get "data" body = Some data /\
        holds_invoice_schema data = true /\
        has_key "filename" body = false) /\
  (forall path w,
      Py.str_in "/upload/invoice" path = false ->
      Py.str_in "/upload/po" path = true ->
      exists body,
        answers (MockAPIHandler.do_POST path w) w 200 body /\
        holds_po_schema body = true /\
        has_key "data" body = false /\
        has_key "filename" body = false).
Proof.
  repeat apply conj.
  - intros t_name t_date request w r H200.
    destruct (upload_invoice_200 _ _ _ _ H200) as [file [Hfile [Hname [Hext Hw]]]].
    subst r. unfold ApiServer.body. accepted_invoice Hfile Hname Hext Hw.
    reflexivity.
  - intros t_name t_date request w r H200.
    destruct (upload_po_200 _ _ _ _ H200) as [file [Hfile [Hname [Hext Hw]]]].
    subst r. unfold ApiServer.body. accepted_po Hfile Hname Hext Hw.
    repeat split.
  - intros path w H.
    exists MockAPIHandler.invoice_payload. eexists.
    split; [now apply do_POST_upload_invoice|].
    repeat split.
  - intros path w H1 H2.
    exists MockAPIHandler.po_payload.
    split; [now apply do_POST_upload_po|].
    repeat split.
Qed.

Lemma upload_bodies_hold_the_schema_witness :
  filename_and_data holds_invoice_schema
    (ApiServer.body (ApiServer.upload_invoice clock0 clock0 pdf_request world0)) = true.
Proof.
  apply (proj1 upload_bodies_hold_the_schema clock0 clock0 pdf_request world0).
  reflexivity.
Defined.

End ExtractionFacts.

(** ** The mock servers' dispatch on the path *)

Module MockFacts.

Import Contract.

(** The longer submit marker is covered by the shorter one. *)
Lemma frappe_submit_is_submit (path : string) :
  Py.str_in "submit" path = false ->
  Py.str_in "frappe.client.submit" path = false.
Proof.
  intros H. destruct (Py.str_in "frappe.client.submit" path) eqn:E; [|reflexivity].
  apply (PyFacts.str_in_app_l "frappe.client." "submit") in E. congruence.
Qed.

(** Case analysis on the tests a handler makes, in the order it makes them. *)
Ltac next_test path :=
  match goal with
  | |- context [if Py.str_in ?m path then _ else _] =>
      destruct (Py.str_in m path) eqn:?
  | |- context [if Py.str_in ?m path || _ then _ else _] =>
      destruct (Py.str_in m path) eqn:?
  | |- context [if Py.str_in ?m path || _ || _ then _ else _] =>
      destruct (Py.str_in m path) eqn:?
  | |- context [if Py.str_in ?m path || _ || _ || _ then _ else _] =>
      destruct (Py.str_in m path) eqn:?
  end;
  cbn [orb MockAPIHandler.first_match MockAPIHandler.branch_test].

(** [do_POST] answers once, with status 200 and the JSON of the first branch of
    its table that the path passes. *)
Lemma do_POST_first_match (path : string) (w : list MockAPIHandler.HttpResponse) :
  MockAPIHandler.do_POST path w =
  MockAPIHandler._send_json_response 200
    (MockAPIHandler.branch_answer
       (MockAPIHandler.first_match MockAPIHandler.post_order path)) w.
Proof.
  unfold MockAPIHandler.do_POST, MockAPIHandler.post_order.
  cbn [MockAPIHandler.first_match MockAPIHandler.branch_test].
  repeat next_test path; reflexivity.
Qed.

Lemma send_answers (status : Z) (body : json) (w : list MockAPIHandler.HttpResponse) :
  answers (MockAPIHandler._send_json_response status body w) w status body.
Proof. eexists. reflexivity. Qed.

Lemma answers_inj (out w : list MockAPIHandler.HttpResponse)
    (s1 s2 : Z) (b1 b2 : json) :
  answers out w s1 b1 -> answers out w s2 b2 -> s1 = s2 /\ b1 = b2.
Proof.
  intros [h1 H1] [h2 H2]. rewrite H1 in H2.
  apply app_inv_head in H2. inversion H2. now split.
Qed.

(** C5.  On a GET the mock server answers a path with [/Company/] by 200 and the
    company DEMO with default currency USD, whatever else the path has; a path
    with [/Customer/], [/Item/] or [/Supplier/] and without [/Company/] by 404 and
    [{"exc": "Not Found"}]; and every other path by 200 and [{"data": {}}]. *)
Theorem do_GET_dispatch :
  forall (path : string) (w : list MockAPIHandler.HttpResponse),
    (Py.str_in "/Company/" path = true ->
       answers (MockAPIHandler.do_GET path w) w 200
         (JDict [("data", JDict [("name", JStr "DEMO");
                                 ("default_currency", JStr "USD")])])) /\
    (Py.str_in "/Customer/" path = true \/ Py.str_in "/Item/" path = true
       \/ Py.str_in "/Supplier/" path = true ->
     Py.str_in "/Company/" path = false ->
       answers (MockAPIHandler.do_GET path w) w 404 (JDict [("exc", JStr "Not Found")])) /\
    (Py.str_in "/Company/" path = false -> Py.str_in "/Customer/" path = false ->
     Py.str_in "/Item/" path = false -> Py.str_in "/Supplier/" path = false ->
       answers (MockAPIHandler.do_GET path w) w 200 (JDict [("data", JDict [])])).
Proof.
  intros path w. unfold MockAPIHandler.do_GET. repeat split.
  - intros ->. apply send_answers.
  - intros Hany ->.
    assert (Py.str_in "/Customer/" path || Py.str_in "/Item/" path
            || Py.str_in "/Supplier/" path = true) as ->.
    { destruct Hany as [-> | [-> | ->]]; repeat rewrite orb_true_r; reflexivity. }
    apply send_answers.
  - intros -> -> -> ->. apply send_answers.
Qed.

Lemma do_GET_dispatch_witness :
  answers (MockAPIHandler.do_GET "/api/resource/Customer/Test%20Customer" []) [] 404
    (JDict [("exc", JStr "Not Found")]).
Proof.
  apply (proj1 (proj2 (do_GET_dispatch "/api/resource/Customer/Test%20Customer" []))).
  - left. reflexivity.
  - reflexivity.
Defined.

(** C6, as stated, fails for the submit call: a POST whose path has [submit] behind
    [/upload/invoice] is answered by the invoice extraction branch, whose body has
    neither a name nor a docstatus. *)
Lemma post_submit_behind_upload :
  Py.str_in "submit" "/upload/invoice/submit" = true /\
  answers (MockAPIHandler.do_POST "/upload/invoice/submit" []) [] 200
    MockAPIHandler.invoice_payload /\
  ~ submitted_reply (MockAPIHandler.do_POST "/upload/invoice/submit" []) [].
Proof.
  split; [reflexivity|]. split; [eexists; reflexivity|].
  intros [body [name [Hans [data [Hdata [_ Hdoc]]]]]].
  assert (answers (MockAPIHandler.do_POST "/upload/invoice/submit" []) [] 200
            MockAPIHandler.invoice_payload) as Hinv by (eexists; reflexivity).
  destruct (answers_inj _ _ _ _ _ _ Hans Hinv) as [_ ->].
  vm_compute in Hdata. inversion Hdata; subst data.
  vm_compute in Hdoc. discriminate.
Qed.

(** C6, amended.  A POST whose path has [Sales Invoice], respectively [Purchase
    Order], as it stands or URL-encoded as [Sales%20Invoice], respectively
    [Purchase%20Order], and passes no earlier test is answered by 200 with a name
    that starts with [SINV-], respectively [PO-], and docstatus 0.  A POST whose
    path has [submit] and neither [/upload/invoice] nor [/upload/po], and every
    PUT whose path has [SINV-] or [PO-], is answered by 200 with a name and
    docstatus 1. *)
Theorem create_then_submit :
  forall (path : string) (w : list MockAPIHandler.HttpResponse),
    (Py.str_in "/upload/invoice" path = false -> Py.str_in "/upload/po" path = false ->
     Py.str_in "submit" path = false ->
     Py.str_in "Sales Invoice" path = true \/ Py.str_in "Sales%20Invoice" path = true ->
       created_reply "SINV-" (MockAPIHandler.do_POST path w) w) /\
    (Py.str_in "/upload/invoice" path = false -> Py.str_in "/upload/po" path = false ->
     Py.str_in "submit" path = false ->
     Py.str_in "Sales Invoice" path = false -> Py.str_in "Sales%20Invoice" path = false ->
     Py.str_in "Purchase Order" path = true \/ Py.str_in "Purchase%20Order" path = true ->
       created_reply "PO-" (MockAPIHandler.do_POST path w) w) /\
    (Py.str_in "/upload/invoice" path = false -> Py.str_in "/upload/po" path = false ->
     Py.str_in "submit" path = true ->
       submitted_reply (MockAPIHandler.do_POST path w) w) /\
    (Py.str_in "SINV-" path = true \/ Py.str_in "PO-" path = true ->
       submitted_reply (MockAPIHandler.do_PUT path w) w).
Proof.
  intros path w. repeat apply conj.
  - intros H1 H2 H3 H4. unfold MockAPIHandler.do_POST.
    rewrite H1, H2, (frappe_submit_is_submit _ H3), H3. cbn [orb].
    assert (Py.str_in "Sales Invoice" path || Py.str_in "Sales%20Invoice" path = true)
      as -> by (destruct H4 as [-> | ->]; [reflexivity | apply orb_true_r]).
    eexists. exists "SINV-2026-00001".
    split; [apply send_answers|]. split; [|reflexivity].
    eexists. repeat split.
  - intros H1 H2 H3 H4 H5 H6. unfold MockAPIHandler.do_POST.
    rewrite H1, H2, (frappe_submit_is_submit _ H3), H3, H4, H5. cbn [orb].
    assert (Py.str_in "Purchase Order" path || Py.str_in "Purchase%20Order" path = true)
      as -> by (destruct H6 as [-> | ->]; [reflexivity | apply orb_true_r]).
    eexists. exists "PO-2026-00001".
    split; [apply send_answers|]. split; [|reflexivity].
    eexists. repeat split.
  - intros H1 H2 H3. unfold MockAPIHandler.do_POST.
    rewrite H1, H2, H3, orb_true_r.
    eexists. exists "Submitted".
    split; [apply send_answers|].
    eexists. repeat split.
  - intros H. unfold MockAPIHandler.do_PUT.
    destruct (Py.str_in "SINV-" path) eqn:Hs; cbn [orb].
    + eexists. exists "SINV-2026-00001".
      split; [apply send_answers|]. eexists. repeat split.
    + destruct H as [H|H]; [discriminate|]. rewrite H.
      eexists. exists "PO-2026-00001".
      split; [apply send_answers|]. eexists. repeat split.
Qed.

Lemma create_then_submit_witness :
  created_reply "SINV-"
    (MockAPIHandler.do_POST "/api/resource/Sales%20Invoice" []) [] /\
  created_reply "PO-"
    (MockAPIHandler.do_POST "/api/resource/Purchase%20Order" []) [] /\
  submitted_reply
    (MockAPIHandler.do_POST "/api/method/frappe.client.submit" []) [] /\
  submitted_reply
    (MockAPIHandler.do_PUT "/api/resource/Sales%20Invoice/SINV-2026-00001" []) [].
Proof.
  split; [|split; [|split]].
  - apply (proj1 (create_then_submit "/api/resource/Sales%20Invoice" []));
      try reflexivity. right. reflexivity.
  - apply (proj1 (proj2 (create_then_submit "/api/resource/Purchase%20Order" [])));
      try reflexivity. right. reflexivity.
  - apply (proj1 (proj2 (proj2
      (create_then_submit "/api/method/frappe.client.submit" []))));
      reflexivity.
  - apply (proj2 (proj2 (proj2
      (create_then_submit "/api/resource/Sales%20Invoice/SINV-2026-00001" [])))).
    left. reflexivity.
Defined.

(** With [submit] in the path the dispatch stops at the submit test at the latest. *)
Lemma first_match_with_submit (path : string) :
  Py.str_in "submit" path = true ->
  MockAPIHandler.first_match MockAPIHandler.post_order path = MockAPIHandler.UploadInvoice \/
  MockAPIHandler.first_match MockAPIHandler.post_order path = MockAPIHandler.UploadPO \/
  MockAPIHandler.first_match MockAPIHandler.post_order path = MockAPIHandler.Submit.
Proof.
  intros H. unfold MockAPIHandler.post_order.
  cbn [MockAPIHandler.first_match MockAPIHandler.branch_test].
  destruct (Py.str_in "/upload/invoice" path); [now left|].
  destruct (Py.str_in "/upload/po" path); [right; now left|].
  rewrite H, orb_true_r. right; now right.
Qed.

(** C10, as stated, fails in its last part.  The path
    [/upload/invoice/Sales%20Invoice/submit] has [Sales Invoice], in the
    URL-encoded form in which a request line carries it and which the Sales
    Invoice branch tests for, and it has [submit]; the POST is answered by the
    invoice extraction branch, which comes first, and not by the submit branch. *)
Lemma post_sales_invoice_submit_behind_upload :
  MockAPIHandler.branch_test MockAPIHandler.SalesInvoice
    "/upload/invoice/Sales%20Invoice/submit" = true /\
  Py.str_in "Sales%20Invoice" "/upload/invoice/Sales%20Invoice/submit" = true /\
  Py.str_in "submit" "/upload/invoice/Sales%20Invoice/submit" = true /\
  MockAPIHandler.first_match MockAPIHandler.post_order
    "/upload/invoice/Sales%20Invoice/submit" = MockAPIHandler.UploadInvoice /\
  answers (MockAPIHandler.do_POST "/upload/invoice/Sales%20Invoice/submit" []) [] 200
    MockAPIHandler.invoice_payload /\
  ~ answers (MockAPIHandler.do_POST "/upload/invoice/Sales%20Invoice/submit" []) [] 200
      (MockAPIHandler.branch_answer MockAPIHandler.Submit).
Proof.
  assert (answers (MockAPIHandler.do_POST "/upload/invoice/Sales%20Invoice/submit" [])
            [] 200 MockAPIHandler.invoice_payload) as Hinv by (eexists; reflexivity).
  repeat split; try reflexivity; try exact Hinv.
  intros Hsub. destruct (answers_inj _ _ _ _ _ _ Hinv Hsub) as [_ Heq].
  discriminate Heq.
Qed.

(** C10, amended.  Every POST is answered exactly once, with status 200, by the
    first branch that its path passes in the order upload/invoice, upload/po,
    submit, Sales Invoice, Purchase Order, entity creation, and by [{"data": {}}]
    when it passes none.  So a POST whose path has both [Sales Invoice], as it
    stands or URL-encoded as [Sales%20Invoice], and [submit] is never answered by
    the creation branch; it is answered by the submit branch, with the name
    "Submitted" and docstatus 1, when its path has neither [/upload/invoice] nor
    [/upload/po]. *)
Theorem do_POST_total_first_match :
  forall (path : string) (w : list MockAPIHandler.HttpResponse),
    answers (MockAPIHandler.do_POST path w) w 200
      (MockAPIHandler.branch_answer
         (MockAPIHandler.first_match MockAPIHandler.post_order path)) /\
    (exists r, MockAPIHandler.do_POST path w = (w ++ [r])%list /\
               MockAPIHandler.status r = 200%Z) /\
    ((forall b, In b MockAPIHandler.post_order ->
                MockAPIHandler.branch_test b path = false) ->
       answers (MockAPIHandler.do_POST path w) w 200 (JDict [("data", JDict [])])) /\
    (Py.str_in "Sales Invoice" path = true \/ Py.str_in "Sales%20Invoice" path = true ->
     Py.str_in "submit" path = true ->
       MockAPIHandler.first_match MockAPIHandler.post_order path
         <> MockAPIHandler.SalesInvoice /\
       ~ answers (MockAPIHandler.do_POST path w) w 200
           (MockAPIHandler.branch_answer MockAPIHandler.SalesInvoice) /\
       (Py.str_in "/upload/invoice" path = false -> Py.str_in "/upload/po" path = false ->
          MockAPIHandler.first_match MockAPIHandler.post_order path
            = MockAPIHandler.Submit /\
          answers (MockAPIHandler.do_POST path w) w 200
            (JDict [("data", JDict [("name", JStr "Submitted");
                                    ("docstatus", JInt 1)])]))).
Proof.
  intros path w.
  assert (answers (MockAPIHandler.do_POST path w) w 200
            (MockAPIHandler.branch_answer
               (MockAPIHandler.first_match MockAPIHandler.post_order path))) as Hfirst.
  { rewrite do_POST_first_match. apply send_answers. }
  repeat apply conj.
  - exact Hfirst.
  - rewrite do_POST_first_match. eexists. split; reflexivity.
  - intros Hnone.
    assert (MockAPIHandler.first_match MockAPIHandler.post_order path
            = MockAPIHandler.CatchAll) as Hcatch.
    { unfold MockAPIHandler.post_order in *.
      cbn [MockAPIHandler.first_match].
      repeat match goal with
      | |- context [MockAPIHandler.branch_test ?b path] =>
          rewrite (Hnone b) by (cbn [In]; tauto)
      end.
      reflexivity. }
    rewrite Hcatch in Hfirst. exact Hfirst.
  - intros _ Hsubmit. split; [|split].
    + destruct (first_match_with_submit path Hsubmit) as [H | [H | H]]; congruence.
    + intros Hcreate.
      destruct (answers_inj _ _ _ _ _ _ Hfirst Hcreate) as [_ Heq].
      destruct (first_match_with_submit path Hsubmit) as [H | [H | H]];
        rewrite H in Heq; discriminate Heq.
    + intros H1 H2. split.
      * unfold MockAPIHandler.post_order.
        cbn [MockAPIHandler.first_match MockAPIHandler.branch_test].
        now rewrite H1, H2, Hsubmit, orb_true_r.
      * unfold MockAPIHandler.do_POST.
        rewrite H1, H2, Hsubmit, orb_true_r. apply send_answers.
Qed.

Lemma do_POST_total_first_match_witness :
  MockAPIHandler.first_match MockAPIHandler.post_order
    "/api/resource/Sales%20Invoice?cmd=submit" = MockAPIHandler.Submit /\
  answers (MockAPIHandler.do_POST "/api/resource/Sales%20Invoice?cmd=submit" []) [] 200
    (JDict [("data", JDict [("name", JStr "Submitted"); ("docstatus", JInt 1)])]).
Proof.
  apply (proj2 (proj2 (proj2
    (do_POST_total_first_match "/api/resource/Sales%20Invoice?cmd=submit" []))));
    try reflexivity.
  right. reflexivity.
Defined.

End MockFacts.

(** ** The frontend contract: lifecycle, validator and outcome resolver *)

Module FrontendFacts.

Import Contract.

(** *** File selection *)

(** C7.  Selecting a file that is not a PDF in the state Empty leaves the state
    Empty, so no transition to Uploading happens, and surfaces exactly
    "Please select a valid PDF file". *)
Theorem non_pdf_selection_is_rejected :
  forall f : Frontend.File,
    Frontend.is_pdf f = false ->
    Frontend.step Frontend.Empty (Frontend.SelectFile f)
      = (Frontend.Empty, Some "Please select a valid PDF file") /\
    fst (Frontend.step Frontend.Empty (Frontend.SelectFile f)) <> Frontend.Uploading.
Proof.
  intros f H. unfold Frontend.step. rewrite H. split; [reflexivity | discriminate].
Qed.

Lemma non_pdf_selection_is_rejected_witness :
  (Frontend.step Frontend.Empty
     (Frontend.SelectFile (Frontend.mkFile "invalid.txt" "text/plain"))
     = (Frontend.Empty, Some "Please select a valid PDF file") /\
   fst (Frontend.step Frontend.Empty
          (Frontend.SelectFile (Frontend.mkFile "invalid.txt" "text/plain")))
     <> Frontend.Uploading) /\
  (Frontend.step Frontend.Empty
     (Frontend.SelectFile
        (Frontend.mkFile "invalid.xlsx"
           "application/vnd.openxmlformats-officedocument.spreadsheetml.sheet"))
     = (Frontend.Empty, Some "Please select a valid PDF file") /\
   fst (Frontend.step Frontend.Empty
          (Frontend.SelectFile
             (Frontend.mkFile "invalid.xlsx"
                "application/vnd.openxmlformats-officedocument.spreadsheetml.sheet")))
     <> Frontend.Uploading).
Proof.
  split; apply non_pdf_selection_is_rejected; reflexivity.
Defined.

(** The guard is the only way out of Empty: a selection reaches Uploading exactly
    when the file is a PDF, and nothing else moves the state. *)
Lemma leaves_empty_iff (e : Frontend.Event) :
  fst (Frontend.step Frontend.Empty e) <> Frontend.Empty <->
  exists f, e = Frontend.SelectFile f /\ Frontend.is_pdf f = true.
Proof.
  split.
  - destruct e as [f| | | | v | o |]; cbn; try congruence.
    destruct (Frontend.is_pdf f) eqn:E; cbn; [|congruence].
    intros _. now exists f.
  - intros [f [-> H]]. cbn. rewrite H. discriminate.
Qed.

(** *** Validation *)

Lemma required_empty (message : string) : Frontend.required message "" = Some message.
Proof. reflexivity. Qed.

Lemma required_filled (message value : string) :
  value <> "" -> Frontend.required message value = None.
Proof.
  intros H. unfold Frontend.required.
  now apply String.eqb_neq in H as ->.
Qed.

Lemma quantities_positive_head (index : nat) (q : Q) (rest : list Q) :
  (q <= 0)%Q ->
  Frontend.quantities_positive index (q :: rest)
    = Some (Frontend.quantity_message index).
Proof.
  intros H. cbn. now apply Qle_bool_iff in H as ->.
Qed.

(** C8, as stated, fails in its last part: an invoice whose first item has
    quantity 0 and whose company name is empty gets the company error, which
    comes first in the priority order, and not the item error. *)
Lemma zero_quantity_behind_missing_company :
  (exists it rest,
      Frontend.items (sample_invoice "" "Test Customer" 0) = it :: rest /\
      (Invoice.quantity it <= 0)%Q) /\
  Frontend.validate_invoice (sample_invoice "" "Test Customer" 0)
    = Frontend.Invalid "Please specify a company before creating the invoice." /\
  Frontend.validate_invoice (sample_invoice "" "Test Customer" 0)
    <> Frontend.Invalid "Item 1: Quantity must be greater than zero".
Proof.
  split; [|split].
  - eexists. eexists. split; [reflexivity|]. vm_compute. discriminate.
  - reflexivity.
  - vm_compute. discriminate.
Qed.

(** C8, amended.  Validation gives the first violation in the fixed priority order.
    A document without company and without counterparty gets the company error:
    an Invoice exactly "Please specify a company before creating the invoice." and
    not the customer message, a purchase order its own company message and not the
    supplier message.  A purchase order with an empty supplier and a non-empty
    company gets exactly "Supplier name is required".  An invoice whose company
    and customer are not empty and whose first item has a quantity of zero or less
    gets exactly "Item 1: Quantity must be greater than zero". *)
Theorem first_violation_in_priority_order :
  (forall d : Frontend.InvoiceDocument,
      Frontend.company_name d = "" -> Frontend.customer_name d = "" ->
      Frontend.validate_invoice d
        = Frontend.Invalid "Please specify a company before creating the invoice." /\
      Frontend.validate_invoice d <> Frontend.Invalid Frontend.CUSTOMER_REQUIRED) /\
  (forall d : Frontend.PurchaseOrderDocument,
      Frontend.po_company_name d = "" -> Frontend.supplier_name d = "" ->
      Frontend.validate_po d = Frontend.Invalid Frontend.PO_COMPANY_REQUIRED /\
      Frontend.validate_po d <> Frontend.Invalid "Supplier name is required") /\
  (forall d : Frontend.PurchaseOrderDocument,
      Frontend.supplier_name d = "" -> Frontend.po_company_name d <> "" ->
      Frontend.validate_po d = Frontend.Invalid "Supplier name is required") /\
  (forall (d : Frontend.InvoiceDocument) (it : Invoice.LineItem)
          (rest : list Invoice.LineItem),
      Frontend.company_name d <> "" -> Frontend.customer_name d <> "" ->
      Frontend.items d = it :: rest -> (Invoice.quantity it <= 0)%Q ->
      Frontend.validate_invoice d
        = Frontend.Invalid "Item 1: Quantity must be greater than zero").
Proof.
  repeat apply conj.
  - intros d Hc _. unfold Frontend.validate_invoice, Frontend.invoice_rules.
    cbn [Frontend.first_violation]. rewrite Hc, required_empty.
    split; [reflexivity | discriminate].
  - intros d Hc _. unfold Frontend.validate_po, Frontend.po_rules.
    cbn [Frontend.first_violation]. rewrite Hc, required_empty.
    split; [reflexivity | discriminate].
  - intros d Hs Hc. unfold Frontend.validate_po, Frontend.po_rules.
    cbn [Frontend.first_violation].
    rewrite (required_filled _ _ Hc), Hs, required_empty. reflexivity.
  - intros d it rest Hc Hcu Hitems Hq.
    unfold Frontend.validate_invoice, Frontend.invoice_rules.
    cbn [Frontend.first_violation].
    rewrite (required_filled _ _ Hc), (required_filled _ _ Hcu), Hitems.
    cbn [map]. rewrite (quantities_positive_head _ _ _ Hq). reflexivity.
Qed.

Lemma first_violation_in_priority_order_witness :
  (Frontend.validate_invoice (sample_invoice "" "" 2)
     = Frontend.Invalid "Please specify a company before creating the invoice." /\
   Frontend.validate_invoice (sample_invoice "" "" 2)
     <> Frontend.Invalid Frontend.CUSTOMER_REQUIRED) /\
  Frontend.validate_po (sample_po "My Company" "")
    = Frontend.Invalid "Supplier name is required" /\
  Frontend.validate_invoice (sample_invoice "DEMO" "Test Customer" (-1))
    = Frontend.Invalid "Item 1: Quantity must be greater than zero".
Proof.
  split; [|split].
  - apply (proj1 first_violation_in_priority_order); reflexivity.
  - apply (proj1 (proj2 (proj2 first_violation_in_priority_order)));
      [reflexivity | discriminate].
  - apply (proj2 (proj2 (proj2 first_violation_in_priority_order))
             (sample_invoice "DEMO" "Test Customer" (-1))
             (sample_item (-1)) []);
      [discriminate | discriminate | reflexivity | vm_compute; discriminate].
Defined.

(** An otherwise complete invoice with a positive quantity is valid: the rules do
    not reject everything. *)
Example sample_invoice_is_valid :
  Frontend.validate_invoice (sample_invoice "DEMO" "Test Customer" 2) = Frontend.Valid /\
  Frontend.validate_po (sample_po "My Company" "ABC Supplier") = Frontend.Valid.
Proof. split; reflexivity. Qed.

(** *** Outcome *)

(** C9.  A submission response with an error text that has "currency" in it is
    resolved to Warning and not to Error; with any other error text Error wins,
    also when the response carries the success signals of a submitted reference.
    Each response shows in exactly one of the three message areas. *)
Theorem currency_error_is_a_warning :
  forall (kind : Frontend.DocumentKind) (r : Frontend.SubmissionResponse),
    (forall text,
        Frontend.error r = Some text ->
        (Py.str_in "currency" text = true ->
           Frontend.resolve kind r = Frontend.Warning (Frontend.Benign text) /\
           Frontend.visible (Frontend.resolve kind r) Frontend.Red = false) /\
        (Py.str_in "currency" text = false ->
         Frontend.success_signal kind r = true ->
           Frontend.resolve kind r = Frontend.Error text)) /\
    (exists b,
        Frontend.visible (Frontend.resolve kind r) b = true /\
        forall b', Frontend.visible (Frontend.resolve kind r) b' = true -> b' = b).
Proof.
  intros kind r. split.
  - intros text Herr. unfold Frontend.resolve, Frontend.benign. rewrite Herr. split.
    + intros ->. split; reflexivity.
    + intros -> _. reflexivity.
  - destruct (Frontend.resolve kind r) as [reference | condition | reason].
    + exists Frontend.Green. split; [reflexivity|]. intros []; cbn; congruence.
    + exists Frontend.Orange. split; [reflexivity|]. intros []; cbn; congruence.
    + exists Frontend.Red. split; [reflexivity|]. intros []; cbn; congruence.
Qed.

Lemma currency_error_is_a_warning_witness :
  Frontend.resolve Frontend.KindInvoice
    (Frontend.mkSubmissionResponse
       (Some "Party Account currency (ILS) and document currency (USD) should be same")
       (Some ("SINV-2026-00001", 1%Z)))
  = Frontend.Warning
      (Frontend.Benign
         "Party Account currency (ILS) and document currency (USD) should be same") /\
  Frontend.resolve Frontend.KindInvoice
    (Frontend.mkSubmissionResponse
       (Some "Customer Test Customer not found")
       (Some ("SINV-2026-00001", 1%Z)))
  = Frontend.Error "Customer Test Customer not found".
Proof.
  split.
  - apply (proj1 (currency_error_is_a_warning Frontend.KindInvoice
             (Frontend.mkSubmissionResponse
                (Some "Party Account currency (ILS) and document currency (USD) should be same")
                (Some ("SINV-2026-00001", 1%Z)))) _ eq_refl); reflexivity.
  - apply (proj1 (currency_error_is_a_warning Frontend.KindInvoice
             (Frontend.mkSubmissionResponse
                (Some "Customer Test Customer not found")
                (Some ("SINV-2026-00001", 1%Z)))) _ eq_refl); reflexivity.
Defined.

(** Scenario 5 of the specification: a submitted reference resolves to Success and
    is surfaced verbatim. *)
Example scenario5 :
  Frontend.resolve Frontend.KindInvoice
    (Frontend.mkSubmissionResponse None (Some ("SINV-2026-00001", 1%Z)))
  = Frontend.Success "SINV-2026-00001".
Proof. reflexivity. Qed.

End FrontendFacts.

(** ** What the Flask handlers do to the disk and the output *)

Module UploadEffects.

Import Contract More.

Lemma cons_neq {A : Type} (x : A) (l : list A) : x :: l <> l.
Proof.
  intros H. apply (f_equal (@List.length A)) in H. cbn in H. lia.
Qed.

(** How a call of [upload_invoice] ends: without 200 and with the world as it
    was, or with 200, the content on disk under the saved name and one more line
    on the output. *)
Lemma invoice_outcome (t_name t_date : ApiServer.datetime) (request : ApiServer.Request)
    (w : ApiServer.World) :
  let r := ApiServer.upload_invoice t_name t_date request w in
  (ApiServer.status_code r <> 200%Z /\ snd r = w) \/
  (exists file line,
      assoc "file" (ApiServer.files request) = Some file /\
      ApiServer.writable w (saved_path (saved_name "invoice_" t_name file)) = true /\
      ApiServer.status_code r = 200%Z /\
      get_str "filename" (ApiServer.body r) = Some (saved_name "invoice_" t_name file) /\
      snd r = ApiServer.mkWorld
                ((saved_path (saved_name "invoice_" t_name file), ApiServer.stream file)
                 :: ApiServer.disk w)
                (ApiServer.stdout w ++ [line])%list
                (ApiServer.writable w)).
Proof.
  intros r. subst r.
  unfold ApiServer.upload_invoice, ApiServer.status_code, ApiServer.body.
  destruct (assoc "file" (ApiServer.files request)) as [file|] eqn:Hfile;
    [|left; split; [discriminate | reflexivity]].
  destruct (String.eqb (ApiServer.filename file) "") eqn:Hname;
    [left; split; [discriminate | reflexivity]|].
  destruct (Py.endswith (ApiServer.filename file) ".pdf") eqn:Hext;
    [|left; split; [discriminate | reflexivity]].
  cbn [negb]. cbv zeta. rewrite ApiServerFacts.joined_invoice.
  change ("uploads/" ++ "invoice_" ++ ApiServer.strftime_stamp t_name ++ "_"
          ++ ApiServer.filename file)
    with (saved_path (saved_name "invoice_" t_name file)).
  unfold ApiServer.save.
  destruct (ApiServer.writable w (saved_path (saved_name "invoice_" t_name file))) eqn:Hw.
  - right. exists file. eexists. repeat split; try assumption; reflexivity.
  - left. split; [discriminate | reflexivity].
Qed.

Lemma po_outcome (t_name t_date : ApiServer.datetime) (request : ApiServer.Request)
    (w : ApiServer.World) :
  let r := ApiServer.upload_po t_name t_date request w in
  (ApiServer.status_code r <> 200%Z /\ snd r = w) \/
  (exists file line,
      assoc "file" (ApiServer.files request) = Some file /\
      ApiServer.writable w (saved_path (saved_name "po_" t_name file)) = true /\
      ApiServer.status_code r = 200%Z /\
      get_str "filename" (ApiServer.body r) = Some (saved_name "po_" t_name file) /\
      snd r = ApiServer.mkWorld
                ((saved_path (saved_name "po_" t_name file), ApiServer.stream file)
                 :: ApiServer.disk w)
                (ApiServer.stdout w ++ [line])%list
                (ApiServer.writable w)).
Proof.
  intros r. subst r.
  unfold ApiServer.upload_po, ApiServer.status_code, ApiServer.body.
  destruct (assoc "file" (ApiServer.files request)) as [file|] eqn:Hfile;
    [|left; split; [discriminate | reflexivity]].
  destruct (String.eqb (ApiServer.filename file) "") eqn:Hname;
    [left; split; [discriminate | reflexivity]|].
  destruct (Py.endswith (ApiServer.filename file) ".pdf") eqn:Hext;
    [|left; split; [discriminate | reflexivity]].
  cbn [negb]. cbv zeta. rewrite ApiServerFacts.joined_po.
  change ("uploads/" ++ "po_" ++ ApiServer.strftime_stamp t_name ++ "_"
          ++ ApiServer.filename file)
    with (saved_path (saved_name "po_" t_name file)).
  unfold ApiServer.save.
  destruct (ApiServer.writable w (saved_path (saved_name "po_" t_name file))) eqn:Hw.
  - right. exists file. eexists. repeat split; try assumption; reflexivity.
  - left. split; [discriminate | reflexivity].
Qed.

(** The two outcomes, one after the other. *)
Ltac by_outcome H :=
  cbv zeta in H;
  destruct H as [[Hnot Hsame] | [file [line [Hfile [Hw [H200 [Hbody Hworld]]]]]]].

(** A world with one more file on disk is another world. *)
Lemma stored_world_differs (path content : string) (out : list string)
    (w : ApiServer.World) :
  ApiServer.mkWorld ((path, content) :: ApiServer.disk w) out (ApiServer.writable w) <> w.
Proof.
  intros H. apply (f_equal ApiServer.disk) in H. cbn in H. now apply cons_neq in H.
Qed.

(** X1.  An upload leaves a trace exactly when it is answered 200.  A request that
    ends otherwise, rejected with 400 or ended in 500 because [file.save] could
    not open the file, saves no file and prints nothing; a request that is
    answered 200 always changes the world. *)
Theorem rejected_upload_leaves_no_trace :
  forall (t_name t_date : ApiServer.datetime) (request : ApiServer.Request)
         (w : ApiServer.World),
    (ApiServer.status_code (ApiServer.upload_invoice t_name t_date request w) = 200%Z
       <-> snd (ApiServer.upload_invoice t_name t_date request w) <> w) /\
    (ApiServer.status_code (ApiServer.upload_po t_name t_date request w) = 200%Z
       <-> snd (ApiServer.upload_po t_name t_date request w) <> w).
Proof.
  intros t_name t_date request w. split.
  - pose proof (invoice_outcome t_name t_date request w) as H. by_outcome H.
    + split; [intros E; contradiction | intros E; contradiction].
    + split; [intros _ | intros _; exact H200].
      rewrite Hworld. apply stored_world_differs.
  - pose proof (po_outcome t_name t_date request w) as H. by_outcome H.
    + split; [intros E; contradiction | intros E; contradiction].
    + split; [intros _ | intros _; exact H200].
      rewrite Hworld. apply stored_world_differs.
Qed.

Lemma lookup_stored (path content : string) (d : list (string * string)) :
  assoc path ((path, content) :: d) = Some content.
Proof. cbn [assoc]. now rewrite String.eqb_refl. Qed.

Lemma lookup_other (p path content : string) (d : list (string * string)) :
  p <> path -> assoc p ((path, content) :: d) = assoc p d.
Proof. intros H. cbn [assoc]. now apply String.eqb_neq in H as ->. Qed.

(** The content of an accepted upload, its name and the printed line. *)
Lemma stored_after_upload :
  (forall t_name t_date request w,
      let r := ApiServer.upload_invoice t_name t_date request w in
      ApiServer.status_code r = 200%Z ->
      exists file,
        assoc "file" (ApiServer.files request) = Some file /\
        get_str "filename" (ApiServer.body r) = Some (saved_name "invoice_" t_name file) /\
        assoc (saved_path (saved_name "invoice_" t_name file)) (ApiServer.disk (snd r))
          = Some (ApiServer.stream file) /\
        exists line, ApiServer.stdout (snd r) = (ApiServer.stdout w ++ [line])%list) /\
  (forall t_name t_date request w,
      let r := ApiServer.upload_po t_name t_date request w in
      ApiServer.status_code r = 200%Z ->
      exists file,
        assoc "file" (ApiServer.files request) = Some file /\
        get_str "filename" (ApiServer.body r) = Some (saved_name "po_" t_name file) /\
        assoc (saved_path (saved_name "po_" t_name file)) (ApiServer.disk (snd r))
          = Some (ApiServer.stream file) /\
        exists line, ApiServer.stdout (snd r) = (ApiServer.stdout w ++ [line])%list).
Proof.
  split; intros t_name t_date request w r E; subst r.
  - pose proof (invoice_outcome t_name t_date request w) as H. by_outcome H;
      [contradiction|].
    exists file. split; [exact Hfile|]. split; [exact Hbody|]. rewrite Hworld. split.
    + apply lookup_stored.
    + now exists line.
  - pose proof (po_outcome t_name t_date request w) as H. by_outcome H;
      [contradiction|].
    exists file. split; [exact Hfile|]. split; [exact Hbody|]. rewrite Hworld. split.
    + apply lookup_stored.
    + now exists line.
Qed.

(** X2.  An accepted upload can be read back: the body's [filename] is the prefix
    ([invoice_] or [po_]), the time stamp, an underscore and the name the client
    gave; the uploaded content is on disk under that name in the upload folder;
    and one line went to the output, after the lines that were there. *)
Theorem accepted_upload_is_stored :
  (forall t_name t_date request w,
      let r := ApiServer.upload_invoice t_name t_date request w in
      ApiServer.status_code r = 200%Z ->
      exists file,
        assoc "file" (ApiServer.files request) = Some file /\
        get_str "filename" (ApiServer.body r) = Some (saved_name "invoice_" t_name file) /\
        assoc (saved_path (saved_name "invoice_" t_name file)) (ApiServer.disk (snd r))
          = Some (ApiServer.stream file) /\
        exists line, ApiServer.stdout (snd r) = (ApiServer.stdout w ++ [line])%list) /\
  (forall t_name t_date request w,
      let r := ApiServer.upload_po t_name t_date request w in
      ApiServer.status_code r = 200%Z ->
      exists file,
        assoc "file" (ApiServer.files request) = Some file /\
        get_str "filename" (ApiServer.body r) = Some (saved_name "po_" t_name file) /\
        assoc (saved_path (saved_name "po_" t_name file)) (ApiServer.disk (snd r))
          = Some (ApiServer.stream file) /\
        exists line, ApiServer.stdout (snd r) = (ApiServer.stdout w ++ [line])%list).
Proof. exact stored_after_upload. Qed.

Lemma accepted_upload_is_stored_witness :
  exists file,
    assoc "file" (ApiServer.files pdf_request) = Some file /\
    get_str "filename"
      (ApiServer.body (ApiServer.upload_po clock0 clock0 pdf_request world0))
      = Some (saved_name "po_" clock0 file) /\
    assoc (saved_path (saved_name "po_" clock0 file))
      (ApiServer.disk (snd (ApiServer.upload_po clock0 clock0 pdf_request world0)))
      = Some (ApiServer.stream file) /\
    exists line,
      ApiServer.stdout (snd (ApiServer.upload_po clock0 clock0 pdf_request world0))
      = (ApiServer.stdout world0 ++ [line])%list.
Proof.
  apply (proj2 accepted_upload_is_stored clock0 clock0 pdf_request world0).
  reflexivity.
Defined.

(** Where a lookup on the disk can differ after a handler has run. *)
Lemma touched_path :
  forall (t_name t_date : ApiServer.datetime) (request : ApiServer.Request)
         (w : ApiServer.World) (p : string),
    (let r := ApiServer.upload_invoice t_name t_date request w in
     assoc p (ApiServer.disk (snd r)) <> assoc p (ApiServer.disk w) ->
     exists name,
       get_str "filename" (ApiServer.body r) = Some name /\ p = saved_path name) /\
    (let r := ApiServer.upload_po t_name t_date request w in
     assoc p (ApiServer.disk (snd r)) <> assoc p (ApiServer.disk w) ->
     exists name,
       get_str "filename" (ApiServer.body r) = Some name /\ p = saved_path name).
Proof.
  intros t_name t_date request w p. split; intros r E; subst r.
  - pose proof (invoice_outcome t_name t_date request w) as H. by_outcome H.
    + rewrite Hsame in E. congruence.
    + exists (saved_name "invoice_" t_name file). split; [exact Hbody|].
      rewrite Hworld in E. cbn [ApiServer.disk] in E.
      destruct (String.string_dec p (saved_path (saved_name "invoice_" t_name file)))
        as [Heq | Hne]; [exact Heq|].
      now rewrite (lookup_other _ _ _ _ Hne) in E.
  - pose proof (po_outcome t_name t_date request w) as H. by_outcome H.
    + rewrite Hsame in E. congruence.
    + exists (saved_name "po_" t_name file). split; [exact Hbody|].
      rewrite Hworld in E. cbn [ApiServer.disk] in E.
      destruct (String.string_dec p (saved_path (saved_name "po_" t_name file)))
        as [Heq | Hne]; [exact Heq|].
      now rewrite (lookup_other _ _ _ _ Hne) in E.
Qed.

(** X3.  An upload touches the disk at one path at most: wherever a lookup differs
    after the handler has run, the path is the upload folder's entry for the
    [filename] the body reports.  Everything stored before stays as it was. *)
Theorem upload_touches_one_path :
  forall (t_name t_date : ApiServer.datetime) (request : ApiServer.Request)
         (w : ApiServer.World) (p : string),
    (let r := ApiServer.upload_invoice t_name t_date request w in
     assoc p (ApiServer.disk (snd r)) <> assoc p (ApiServer.disk w) ->
     exists name,
       get_str "filename" (ApiServer.body r) = Some name /\ p = saved_path name) /\
    (let r := ApiServer.upload_po t_name t_date request w in
     assoc p (ApiServer.disk (snd r)) <> assoc p (ApiServer.disk w) ->
     exists name,
       get_str "filename" (ApiServer.body r) = Some name /\ p = saved_path name).
Proof. exact touched_path. Qed.

Lemma upload_touches_one_path_witness :
  exists name,
    get_str "filename"
      (ApiServer.body (ApiServer.upload_invoice clock0 clock0 pdf_request world0))
      = Some name /\
    "uploads/invoice_20260129_101500_order.pdf" = saved_path name.
Proof.
  apply (proj1 (upload_touches_one_path clock0 clock0 pdf_request world0
                  "uploads/invoice_20260129_101500_order.pdf")).
  discriminate.
Defined.

(** An invoice name and a purchase-order name differ at their first letter. *)
Lemma saved_names_apart (t t' : ApiServer.datetime) (f f' : ApiServer.FileStorage) :
  saved_path (saved_name "invoice_" t f) <> saved_path (saved_name "po_" t' f').
Proof. intros H. discriminate H. Qed.

(** X4.  Invoices and purchase orders never overwrite each other: a purchase order
    that was stored is still on disk, with its content, after any invoice upload,
    and a stored invoice is still there after any purchase-order upload. *)
Theorem invoice_and_po_uploads_keep_apart :
  forall (t1 t2 t3 t4 : ApiServer.datetime) (first second : ApiServer.Request)
         (w : ApiServer.World) (stored : ApiServer.FileStorage),
    assoc "file" (ApiServer.files first) = Some stored ->
    (let r1 := ApiServer.upload_po t1 t2 first w in
     let r2 := ApiServer.upload_invoice t3 t4 second (snd r1) in
     ApiServer.status_code r1 = 200%Z ->
     assoc (saved_path (saved_name "po_" t1 stored)) (ApiServer.disk (snd r2))
       = Some (ApiServer.stream stored)) /\
    (let r1 := ApiServer.upload_invoice t1 t2 first w in
     let r2 := ApiServer.upload_po t3 t4 second (snd r1) in
     ApiServer.status_code r1 = 200%Z ->
     assoc (saved_path (saved_name "invoice_" t1 stored)) (ApiServer.disk (snd r2))
       = Some (ApiServer.stream stored)).
Proof.
  intros t1 t2 t3 t4 first second w stored Hfirst. split; intros r1 r2 E.
  - pose proof (po_outcome t1 t2 first w) as H1. by_outcome H1; [contradiction|].
    rewrite Hfirst in Hfile. inversion Hfile; subst file. clear Hfile.
    fold r1 in Hworld.
    pose proof (invoice_outcome t3 t4 second (snd r1)) as H2. fold r2 in H2.
    cbv zeta in H2.
    destruct H2 as [[_ Hsame2] | [file2 [line2 [_ [_ [_ [_ Hworld2]]]]]]].
    + rewrite Hsame2, Hworld. apply lookup_stored.
    + rewrite Hworld2. cbn [ApiServer.disk].
      rewrite lookup_other.
      * rewrite Hworld. apply lookup_stored.
      * intros Heq. symmetry in Heq. now apply saved_names_apart in Heq.
  - pose proof (invoice_outcome t1 t2 first w) as H1. by_outcome H1; [contradiction|].
    rewrite Hfirst in Hfile. inversion Hfile; subst file. clear Hfile.
    fold r1 in Hworld.
    pose proof (po_outcome t3 t4 second (snd r1)) as H2. fold r2 in H2.
    cbv zeta in H2.
    destruct H2 as [[_ Hsame2] | [file2 [line2 [_ [_ [_ [_ Hworld2]]]]]]].
    + rewrite Hsame2, Hworld. apply lookup_stored.
    + rewrite Hworld2. cbn [ApiServer.disk].
      rewrite lookup_other.
      * rewrite Hworld. apply lookup_stored.
      * now apply saved_names_apart.
Qed.

Lemma invoice_and_po_uploads_keep_apart_witness :
  assoc (saved_path (saved_name "po_" clock0 (ApiServer.mkFileStorage "order.pdf" "%PDF-1.4")))
    (ApiServer.disk
       (snd (ApiServer.upload_invoice clock0 clock0 (sample_upload "order.pdf" "other")
               (snd (ApiServer.upload_po clock0 clock0 pdf_request world0)))))
  = Some "%PDF-1.4".
Proof.
  apply (proj1 (invoice_and_po_uploads_keep_apart clock0 clock0 clock0 clock0
                  pdf_request (sample_upload "order.pdf" "other") world0
                  (ApiServer.mkFileStorage "order.pdf" "%PDF-1.4") eq_refl)).
  reflexivity.
Defined.

(** X5.  The saved name is not unique: two accepted uploads of one kind whose
    files have the same name and whose time stamps agree (the stamp has seconds,
    no more) go to the same path, and the second replaces the first.  After both,
    the path holds the second content, and both bodies report the same
    [filename]. *)
Theorem same_second_upload_overwrites :
  forall (t1 t1' t2 t2' : ApiServer.datetime) (first second : ApiServer.Request)
         (w : ApiServer.World) (f1 f2 : ApiServer.FileStorage),
    assoc "file" (ApiServer.files first) = Some f1 ->
    assoc "file" (ApiServer.files second) = Some f2 ->
    ApiServer.filename f1 = ApiServer.filename f2 ->
    ApiServer.strftime_stamp t1 = ApiServer.strftime_stamp t2 ->
    (let r1 := ApiServer.upload_invoice t1 t1' first w in
     let r2 := ApiServer.upload_invoice t2 t2' second (snd r1) in
     ApiServer.status_code r1 = 200%Z ->
     ApiServer.status_code r2 = 200%Z /\
     get_str "filename" (ApiServer.body r2) = get_str "filename" (ApiServer.body r1) /\
     assoc (saved_path (saved_name "invoice_" t1 f1)) (ApiServer.disk (snd r2))
       = Some (ApiServer.stream f2)) /\
    (let r1 := ApiServer.upload_po t1 t1' first w in
     let r2 := ApiServer.upload_po t2 t2' second (snd r1) in
     ApiServer.status_code r1 = 200%Z ->
     ApiServer.status_code r2 = 200%Z /\
     get_str "filename" (ApiServer.body r2) = get_str "filename" (ApiServer.body r1) /\
     assoc (saved_path (saved_name "po_" t1 f1)) (ApiServer.disk (snd r2))
       = Some (ApiServer.stream f2)).
Proof.
  intros t1 t1' t2 t2' first second w f1 f2 Hf1 Hf2 Hnames Hstamp.
  assert (saved_name "invoice_" t2 f2 = saved_name "invoice_" t1 f1) as Einv
    by (unfold saved_name; now rewrite Hnames, Hstamp).
  assert (saved_name "po_" t2 f2 = saved_name "po_" t1 f1) as Epo
    by (unfold saved_name; now rewrite Hnames, Hstamp).
  split; intros r1 r2 E.
  - pose proof (invoice_outcome t1 t1' first w) as H1. by_outcome H1; [contradiction|].
    rewrite Hf1 in Hfile. inversion Hfile; subst file. clear Hfile.
    fold r1 in Hworld, Hbody.
    destruct (ExtractionFacts.upload_invoice_200 _ _ _ _ E) as [f [Hf [Hn [He _]]]].
    rewrite Hf1 in Hf. inversion Hf; subst f. clear Hf.
    pose proof (invoice_outcome t2 t2' second (snd r1)) as H2. fold r2 in H2.
    cbv zeta in H2.
    destruct H2 as [[Hnot2 _] | [file2 [line2 [Hfile2 [_ [H200' [Hbody2 Hworld2]]]]]]].
    + exfalso. apply Hnot2.
      destruct (ApiServerFacts.upload_invoice_contract t2 t2' second (snd r1))
        as (_ & _ & _ & _ & _ & Hpast).
      apply (Hpast f2 Hf2).
      * rewrite <- Hnames. now apply String.eqb_neq.
      * now rewrite <- Hnames.
      * rewrite Hworld. cbn [ApiServer.writable].
        change ("uploads/" ++ "invoice_" ++ ApiServer.strftime_stamp t2 ++ "_"
                ++ ApiServer.filename f2)
          with (saved_path (saved_name "invoice_" t2 f2)).
        now rewrite Einv.
    + rewrite Hf2 in Hfile2. inversion Hfile2; subst file2. clear Hfile2.
      split; [exact H200'|]. split.
      * now rewrite Hbody, Hbody2, Einv.
      * rewrite Hworld2, Einv. apply lookup_stored.
  - pose proof (po_outcome t1 t1' first w) as H1. by_outcome H1; [contradiction|].
    rewrite Hf1 in Hfile. inversion Hfile; subst file. clear Hfile.
    fold r1 in Hworld, Hbody.
    destruct (ExtractionFacts.upload_po_200 _ _ _ _ E) as [f [Hf [Hn [He _]]]].
    rewrite Hf1 in Hf. inversion Hf; subst f. clear Hf.
    pose proof (po_outcome t2 t2' second (snd r1)) as H2. fold r2 in H2.
    cbv zeta in H2.
    destruct H2 as [[Hnot2 _] | [file2 [line2 [Hfile2 [_ [H200' [Hbody2 Hworld2]]]]]]].
    + exfalso. apply Hnot2.
      destruct (ApiServerFacts.upload_po_contract t2 t2' second (snd r1))
        as (_ & _ & _ & _ & _ & Hpast).
      apply (Hpast f2 Hf2).
      * rewrite <- Hnames. now apply String.eqb_neq.
      * now rewrite <- Hnames.
      * rewrite Hworld. cbn [ApiServer.writable].
        change ("uploads/" ++ "po_" ++ ApiServer.strftime_stamp t2 ++ "_"
                ++ ApiServer.filename f2)
          with (saved_path (saved_name "po_" t2 f2)).
        now rewrite Epo.
    + rewrite Hf2 in Hfile2. inversion Hfile2; subst file2. clear Hfile2.
      split; [exact H200'|]. split.
      * now rewrite Hbody, Hbody2, Epo.
      * rewrite Hworld2, Epo. apply lookup_stored.
Qed.

Lemma same_second_upload_overwrites_witness :
  assoc "uploads/invoice_20260129_101500_order.pdf"
    (ApiServer.disk
       (snd (ApiServer.upload_invoice clock0 clock0 (sample_upload "order.pdf" "second")
               (snd (ApiServer.upload_invoice clock0 clock0
                       (sample_upload "order.pdf" "first") world0)))))
  = Some "second".
Proof.
  apply (proj1 (same_second_upload_overwrites clock0 clock0 clock0 clock0
                  (sample_upload "order.pdf" "first")
                  (sample_upload "order.pdf" "second") world0
                  (ApiServer.mkFileStorage "order.pdf" "first")
                  (ApiServer.mkFileStorage "order.pdf" "second")
                  eq_refl eq_refl eq_refl eq_refl)).
  reflexivity.
Defined.

End UploadEffects.

(** ** More on Python's strings *)

Module PyTextFacts.

Lemma append_assoc (a b c : string) : (a ++ b) ++ c = a ++ (b ++ c).
Proof. induction a as [|x a IH]; cbn; [reflexivity | now rewrite IH]. Qed.

(** A string that has a marker has every prefix of the marker. *)
Lemma str_in_app_r (a b s : string) :
  Py.str_in (a ++ b) s = true -> Py.str_in a s = true.
Proof.
  rewrite !PyFacts.str_in_iff. intros [p [q H]].
  exists p, (b ++ q). now rewrite H, append_assoc.
Qed.

Lemma str_in_middle (p u q : string) : Py.str_in u (p ++ u ++ q) = true.
Proof. apply PyFacts.str_in_iff. now exists p, q. Qed.

Lemma lower_app (a b : string) :
  PyText.lower (a ++ b) = PyText.lower a ++ PyText.lower b.
Proof. induction a as [|x a IH]; cbn; [reflexivity | now rewrite IH]. Qed.

Lemma lower_char_idempotent (c : ascii) :
  PyText.lower_char (PyText.lower_char c) = PyText.lower_char c.
Proof.
  destruct c as [[] [] [] [] [] [] [] []]; reflexivity.
Qed.

Lemma lower_idempotent (s : string) : PyText.lower (PyText.lower s) = PyText.lower s.
Proof.
  induction s as [|c s IH]; cbn; [reflexivity|].
  now rewrite lower_char_idempotent, IH.
Qed.

End PyTextFacts.

(** ** More on the mock servers *)

Module MockMore.

Import Contract More.

(** X6.  [do_PUT] always answers 200, and the name it returns is one of two fixed
    names, not the document named in the path: with [SINV-] in the path it is
    SINV-2026-00001 with docstatus 1, also when the path has [PO-] as well; with
    [PO-] and no [SINV-] it is PO-2026-00001 with docstatus 1; with neither the
    body is [{"data": {}}]. *)
Theorem do_PUT_dispatch :
  forall (path : string) (w : list MockAPIHandler.HttpResponse),
    (Py.str_in "SINV-" path = true ->
       answers (MockAPIHandler.do_PUT path w) w 200
         (JDict [("data", JDict [("name", JStr "SINV-2026-00001");
                                 ("docstatus", JInt 1)])])) /\
    (Py.str_in "SINV-" path = false -> Py.str_in "PO-" path = true ->
       answers (MockAPIHandler.do_PUT path w) w 200
         (JDict [("data", JDict [("name", JStr "PO-2026-00001");
                                 ("docstatus", JInt 1)])])) /\
    (Py.str_in "SINV-" path = false -> Py.str_in "PO-" path = false ->
       answers (MockAPIHandler.do_PUT path w) w 200 (JDict [("data", JDict [])])).
Proof.
  intros path w. unfold MockAPIHandler.do_PUT. repeat split.
  - intros ->. apply MockFacts.send_answers.
  - intros -> ->. apply MockFacts.send_answers.
  - intros -> ->. apply MockFacts.send_answers.
Qed.

Lemma do_PUT_dispatch_witness :
  answers
    (MockAPIHandler.do_PUT "/api/resource/Purchase%20Order/PO-2026-00042?ref=SINV-7" [])
    [] 200
    (JDict [("data", JDict [("name", JStr "SINV-2026-00001"); ("docstatus", JInt 1)])]).
Proof.
  apply (proj1 (do_PUT_dispatch
                  "/api/resource/Purchase%20Order/PO-2026-00042?ref=SINV-7" [])).
  reflexivity.
Defined.

Lemma sent_headers (status : Z) (body : json) (w : list MockAPIHandler.HttpResponse) :
  exists r,
    MockAPIHandler._send_json_response status body w = (w ++ [r])%list /\
    MockAPIHandler.headers r = ("Content-type", "application/json") :: CORS_HEADERS.
Proof. eexists. split; reflexivity. Qed.

(** X7.  Whatever the path, [do_GET], [do_POST] and [do_PUT] add one response
    behind what was written before, with the JSON content type and the three CORS
    headers, and the preflight [do_OPTIONS] answers 200 with the same three CORS
    headers. *)
Theorem every_response_has_cors_headers :
  forall (path : string) (w : list MockAPIHandler.HttpResponse)
         (v : list MockPreflight.HeadResponse),
    (exists r,
        MockAPIHandler.do_GET path w = (w ++ [r])%list /\
        MockAPIHandler.headers r = ("Content-type", "application/json") :: CORS_HEADERS) /\
    (exists r,
        MockAPIHandler.do_POST path w = (w ++ [r])%list /\
        MockAPIHandler.headers r = ("Content-type", "application/json") :: CORS_HEADERS) /\
    (exists r,
        MockAPIHandler.do_PUT path w = (w ++ [r])%list /\
        MockAPIHandler.headers r = ("Content-type", "application/json") :: CORS_HEADERS) /\
    MockPreflight.do_OPTIONS v = (v ++ [MockPreflight.mkHeadResponse 200 CORS_HEADERS])%list.
Proof.
  intros path w v. repeat apply conj.
  - unfold MockAPIHandler.do_GET.
    destruct (Py.str_in "/Company/" path); [apply sent_headers|].
    destruct (Py.str_in "/Customer/" path || Py.str_in "/Item/" path
              || Py.str_in "/Supplier/" path); apply sent_headers.
  - rewrite MockFacts.do_POST_first_match. apply sent_headers.
  - unfold MockAPIHandler.do_PUT.
    destruct (Py.str_in "SINV-" path || Py.str_in "PO-" path); apply sent_headers.
  - reflexivity.
Qed.

(** A 404 of [do_GET] comes from one of its three entity markers. *)
Lemma do_GET_404 (path : string) (w : list MockAPIHandler.HttpResponse) (body : json) :
  answers (MockAPIHandler.do_GET path w) w 404 body ->
  Py.str_in "/Customer/" path = true \/ Py.str_in "/Item/" path = true
  \/ Py.str_in "/Supplier/" path = true.
Proof.
  unfold MockAPIHandler.do_GET. intros H.
  destruct (Py.str_in "/Company/" path).
  - destruct (MockFacts.answers_inj _ _ _ _ _ _ H (MockFacts.send_answers _ _ _))
      as [E _]. discriminate E.
  - destruct (Py.str_in "/Customer/" path); [now left|].
    destruct (Py.str_in "/Item/" path); [right; now left|].
    destruct (Py.str_in "/Supplier/" path); [right; now right|].
    cbn [orb] in H.
    destruct (MockFacts.answers_inj _ _ _ _ _ _ H (MockFacts.send_answers _ _ _))
      as [E _]. discriminate E.
Qed.

(** X8.  What a GET does not find, a POST can create: a path that [do_GET] answers
    with 404 is never answered by the catch-all of [do_POST], and it is answered
    with the name "Created" when it passes none of the tests that [do_POST] makes
    before the entity test. *)
Theorem not_found_can_be_created :
  forall (path : string) (w w' : list MockAPIHandler.HttpResponse) (body : json),
    answers (MockAPIHandler.do_GET path w) w 404 body ->
    MockAPIHandler.first_match MockAPIHandler.post_order path
      <> MockAPIHandler.CatchAll /\
    (MockAPIHandler.branch_test MockAPIHandler.UploadInvoice path = false ->
     MockAPIHandler.branch_test MockAPIHandler.UploadPO path = false ->
     MockAPIHandler.branch_test MockAPIHandler.Submit path = false ->
     MockAPIHandler.branch_test MockAPIHandler.SalesInvoice path = false ->
     MockAPIHandler.branch_test MockAPIHandler.PurchaseOrder path = false ->
       answers (MockAPIHandler.do_POST path w') w' 200
         (JDict [("data", JDict [("name", JStr "Created")])])).
Proof.
  intros path w w' body H404.
  assert (MockAPIHandler.branch_test MockAPIHandler.Entity path = true) as Hentity.
  { cbn [MockAPIHandler.branch_test].
    destruct (do_GET_404 _ _ _ H404) as [H | [H | H]].
    - apply (PyTextFacts.str_in_app_r "/Customer" "/") in H. now rewrite H.
    - apply (PyTextFacts.str_in_app_r "/Item" "/") in H.
      rewrite H. now rewrite orb_true_r.
    - apply (PyTextFacts.str_in_app_r "/Supplier" "/") in H.
      rewrite H. now rewrite !orb_true_r. }
  split.
  - unfold MockAPIHandler.post_order. cbn [MockAPIHandler.first_match].
    rewrite Hentity.
    repeat match goal with
    | |- context [if ?c then _ else _] => destruct c; try discriminate
    end.
  - intros H1 H2 H3 H4 H5.
    rewrite MockFacts.do_POST_first_match.
    unfold MockAPIHandler.post_order. cbn [MockAPIHandler.first_match].
    rewrite H1, H2, H3, H4, H5, Hentity. apply MockFacts.send_answers.
Qed.

Lemma not_found_can_be_created_witness :
  MockAPIHandler.first_match MockAPIHandler.post_order
    "/api/resource/Customer/Test%20Customer" <> MockAPIHandler.CatchAll /\
  answers (MockAPIHandler.do_POST "/api/resource/Customer/Test%20Customer" []) [] 200
    (JDict [("data", JDict [("name", JStr "Created")])]).
Proof.
  destruct (not_found_can_be_created "/api/resource/Customer/Test%20Customer" [] []
              (JDict [("exc", JStr "Not Found")])) as [H1 H2].
  - eexists. reflexivity.
  - split; [exact H1 | apply H2; reflexivity].
Defined.

End MockMore.

(** ** The availability checks *)

Module ApiCheckerFacts.

Import More.

Lemma append_nil_r (s : string) : s ++ "" = s.
Proof. induction s as [|c s IH]; cbn; [reflexivity | now rewrite IH]. Qed.

Lemma str_in_tail (p u : string) : Py.str_in u (p ++ u) = true.
Proof.
  apply PyFacts.str_in_iff. exists p, "". now rewrite append_nil_r.
Qed.

(** Each of the five messages has the URL in it. *)
Lemma message_has_url (requests_get : ApiChecker.Network) (url : string) (timeout : Z) :
  Py.str_in url (snd (ApiChecker.check_api_availability requests_get url timeout)) = true.
Proof.
  unfold ApiChecker.check_api_availability.
  destruct (requests_get url timeout) as [code | e].
  - destruct (Z.ltb code 500); cbn [snd]; apply PyTextFacts.str_in_middle.
  - destruct (ApiChecker.is_ConnectionError e); [|destruct (ApiChecker.is_Timeout e)];
      cbn [snd]; first [apply PyTextFacts.str_in_middle | apply str_in_tail].
Qed.

Lemma available_iff (requests_get : ApiChecker.Network) (url : string) (timeout : Z) :
  fst (ApiChecker.check_api_availability requests_get url timeout) = true <->
  exists code, requests_get url timeout = ApiChecker.Responded code /\ (code < 500)%Z.
Proof.
  unfold ApiChecker.check_api_availability.
  destruct (requests_get url timeout) as [code | e].
  - destruct (Z.ltb code 500) eqn:E; cbn [fst].
    + apply Z.ltb_lt in E. split; [intros _; now exists code | reflexivity].
    + apply Z.ltb_ge in E. split; [discriminate|].
      intros [c [Hc Hlt]]. inversion Hc; subst c. lia.
  - destruct (ApiChecker.is_ConnectionError e); [|destruct (ApiChecker.is_Timeout e)];
      cbn [fst]; (split; [discriminate | intros [c [Hc _]]; discriminate]).
Qed.

(** X9.  A service counts as available exactly when the request came back with a
    status below 500: a 404 or a 403 is available, a 500 or a 503 is not, and
    neither is any exception. *)
Theorem available_iff_status_below_500 :
  forall (requests_get : ApiChecker.Network) (url : string) (timeout : Z),
    fst (ApiChecker.check_api_availability requests_get url timeout) = true <->
    exists code, requests_get url timeout = ApiChecker.Responded code /\ (code < 500)%Z.
Proof. exact available_iff. Qed.

(** X10.  The message of the check names the URL that was tried, in each of its
    five forms, and an exception that is a connection error is reported as a
    refused connection also when it is a timeout as well. *)
Theorem check_message_names_the_url :
  forall (requests_get : ApiChecker.Network) (url : string) (timeout : Z),
    Py.str_in url (snd (ApiChecker.check_api_availability requests_get url timeout))
      = true /\
    (forall e,
        requests_get url timeout = ApiChecker.Raised e ->
        ApiChecker.is_ConnectionError e = true ->
        ApiChecker.check_api_availability requests_get url timeout
          = (false, "Cannot connect to " ++ url ++ " - Connection refused")).
Proof.
  intros requests_get url timeout. split.
  - apply message_has_url.
  - intros e He Hc. unfold ApiChecker.check_api_availability. now rewrite He, Hc.
Qed.

Lemma check_message_names_the_url_witness :
  ApiChecker.check_api_availability sample_network "http://localhost:3000" 5%Z
  = (false, "Cannot connect to http://localhost:3000 - Connection refused").
Proof.
  apply (proj2 (check_message_names_the_url sample_network "http://localhost:3000" 5%Z)
           (ApiChecker.mkRequestException true true "timed out"));
    reflexivity.
Defined.

(** X11.  The three named checks try one URL each, with the default timeout of 5:
    ERPNext at [/api/method/frappe.auth.get_logged_user] under the base URL, the
    PDF API at [/health] under it, the UI at the base URL itself.  Each is
    available exactly when that URL answered below 500, and each message names the
    base URL. *)
Theorem named_checks_probe_one_url :
  forall (requests_get : ApiChecker.Network) (base_url : string),
    (fst (ApiChecker.check_erpnext_availability requests_get base_url) = true <->
       exists code,
         requests_get (base_url ++ "/api/method/frappe.auth.get_logged_user") 5%Z
           = ApiChecker.Responded code /\ (code < 500)%Z) /\
    (fst (ApiChecker.check_pdf_api_availability requests_get base_url) = true <->
       exists code,
         requests_get (base_url ++ "/health") 5%Z = ApiChecker.Responded code /\
         (code < 500)%Z) /\
    (fst (ApiChecker.check_ui_availability requests_get base_url) = true <->
       exists code,
         requests_get base_url 5%Z = ApiChecker.Responded code /\ (code < 500)%Z) /\
    Py.str_in base_url (snd (ApiChecker.check_erpnext_availability requests_get base_url))
      = true /\
    Py.str_in base_url (snd (ApiChecker.check_pdf_api_availability requests_get base_url))
      = true /\
    Py.str_in base_url (snd (ApiChecker.check_ui_availability requests_get base_url))
      = true.
Proof.
  intros requests_get base_url.
  unfold ApiChecker.check_erpnext_availability, ApiChecker.check_pdf_api_availability,
         ApiChecker.check_ui_availability, ApiChecker.DEFAULT_TIMEOUT.
  repeat apply conj; try apply available_iff.
  - eapply PyTextFacts.str_in_app_r. apply message_has_url.
  - eapply PyTextFacts.str_in_app_r. apply message_has_url.
  - apply message_has_url.
Qed.

End ApiCheckerFacts.

(** ** The browser loop *)

Module BrowserRunsFacts.

Import More.

Section Loop.

Context {Page : Type}.
Variable test_func : Page -> option BrowserRuns.Exception.

Lemma dict_set_fresh {A : Type} (k : string) (v : A) (d : list (string * A)) :
  ~ In k (map fst d) -> PyText.dict_set k v d = (d ++ [(k, v)])%list.
Proof.
  induction d as [|[k' v'] d IH]; cbn; intros H; [reflexivity|].
  destruct (String.eqb k k') eqn:E.
  - apply String.eqb_eq in E. exfalso. apply H. now left.
  - rewrite IH; [reflexivity|]. intros Hin. apply H. now right.
Qed.

(** The loop stops at the first page whose call raises something that is no
    [AssertionError], whatever was recorded before. *)
Lemma run_pages_escape (pre post : list (string * Page)) (name : string) (page : Page)
    (e : BrowserRuns.Exception) (results : list (string * string)) :
  Forall (contained test_func) pre ->
  test_func page = Some e -> BrowserRuns.is_assertion e = false ->
  BrowserRuns.run_pages test_func (pre ++ (name, page) :: post)%list results = inl e.
Proof.
  intros Hpre He Hna. revert results.
  induction pre as [|[n p] pre IH]; intros results; cbn.
  - rewrite He. destruct e; [discriminate | reflexivity | reflexivity].
  - inversion Hpre as [|x l Hc Hrest]; subst. unfold contained in Hc. cbn in Hc.
    destruct (test_func p) as [[m | r | o]|]; cbn in Hc; try discriminate;
      now apply IH.
Qed.

(** Without such a call the loop records every page, in order. *)
Lemma run_pages_contained (pages : list (string * Page)) (results : list (string * string)) :
  Forall (contained test_func) pages ->
  NoDup (map fst results ++ map fst pages)%list ->
  BrowserRuns.run_pages test_func pages results = inr (results ++ map (entry test_func) pages)%list.
Proof.
  revert results. induction pages as [|[n p] pages IH]; intros results Hc Hnd; cbn.
  - now rewrite app_nil_r.
  - inversion Hc as [|x l Hp Hrest]; subst. unfold contained in Hp. cbn in Hp.
    assert (~ In n (map fst results)) as Hfresh.
    { intros Hin. apply NoDup_remove_2 in Hnd. apply Hnd.
      apply in_or_app. now left. }
    assert (NoDup (map fst (results ++ [(n, recorded (test_func p))]) ++ map fst pages)%list)
      as Hnd'.
    { rewrite map_app, <- app_assoc. exact Hnd. }
    unfold entry at 1. cbn [fst snd].
    destruct (test_func p) as [[m | r | o]|] eqn:E; cbn in Hp; try discriminate.
    + rewrite dict_set_fresh by exact Hfresh.
      rewrite IH; [now rewrite <- app_assoc | exact Hrest | exact Hnd'].
    + rewrite dict_set_fresh by exact Hfresh.
      rewrite IH; [now rewrite <- app_assoc | exact Hrest | exact Hnd'].
Qed.

Lemma failures_of_cons (x : string * string) (l : list (string * string)) :
  BrowserRuns.failures_of (x :: l) =
  List.app (if negb (String.eqb (snd x) "PASS") then [fst x ++ ": " ++ snd x] else [])
           (BrowserRuns.failures_of l).
Proof.
  unfold BrowserRuns.failures_of. cbn [filter].
  destruct (negb (String.eqb (snd x) "PASS")); reflexivity.
Qed.

Lemma failures_of_entries (pages : list (string * Page)) :
  BrowserRuns.failures_of (map (entry test_func) pages)
  = map (failure_line test_func) (filter (failed test_func) pages).
Proof.
  induction pages as [|[n p] pages IH]; [reflexivity|].
  cbn [map filter]. rewrite failures_of_cons, IH.
  assert (failed test_func (n, p)
          = negb (String.eqb (snd (entry test_func (n, p))) "PASS")) as ->.
  { unfold failed, entry, recorded. cbn [fst snd].
    destruct (test_func p) as [[m | r | o]|]; reflexivity. }
  destruct (negb (String.eqb (snd (entry test_func (n, p))) "PASS")); reflexivity.
Qed.

(** The method, when no call escapes the loop. *)
Lemma run_contained (pages : list (string * Page)) :
  NoDup (map fst pages) -> Forall (contained test_func) pages ->
  BrowserRuns._run_test_on_all_browsers test_func pages =
  match map (failure_line test_func) (filter (failed test_func) pages) with
  | [] => None
  | failures =>
      Some (BrowserRuns.AssertionError
              ("Test failed on browsers: " ++ PyText.join ", " failures))
  end.
Proof.
  intros Hnd Hc. unfold BrowserRuns._run_test_on_all_browsers.
  rewrite run_pages_contained by assumption. cbn [app].
  now rewrite failures_of_entries.
Qed.

Lemma no_failure_iff (pages : list (string * Page)) :
  Forall (contained test_func) pages ->
  (filter (failed test_func) pages = [] <-> Forall (fun np => test_func (snd np) = None) pages).
Proof.
  induction pages as [|[n p] pages IH]; intros Hc.
  - split; [constructor | reflexivity].
  - inversion Hc as [|x l Hp Hrest]; subst. unfold contained in Hp. cbn in Hp.
    cbn [filter]. unfold failed at 1. cbn [snd].
    destruct (test_func p) as [[m | r | o]|] eqn:E; cbn in Hp; try discriminate.
    + split; [discriminate|]. intros H. inversion H as [|x l H1 H2]; subst.
      cbn in H1. congruence.
    + rewrite (IH Hrest). split.
      * intros H. constructor; [exact E | exact H].
      * intros H. now inversion H.
Qed.

Lemma passes_iff (pages : list (string * Page)) :
  NoDup (map fst pages) ->
  (BrowserRuns._run_test_on_all_browsers test_func pages = None <->
   Forall (fun np => test_func (snd np) = None) pages).
Proof.
  intros Hnd. split.
  - intros Hrun.
    assert (Forall (contained test_func) pages) as Hc.
    { apply Forall_forall. intros np Hin. unfold contained.
      destruct (escapes (test_func (snd np))) eqn:E; [exfalso | reflexivity].
      (* a first escaping page would have ended the method with its exception *)
      clear Hnd. revert Hrun. unfold BrowserRuns._run_test_on_all_browsers.
      generalize (@nil (string * string)) as results.
      induction pages as [|[n p] pages IH]; intros results; [destruct Hin|].
      cbn [BrowserRuns.run_pages].
      destruct Hin as [<- | Hin].
      - cbn [snd] in E. destruct (test_func p) as [[m | r | o]|]; cbn in E;
          discriminate.
      - destruct (test_func p) as [[m | r | o]|]; try discriminate;
          now apply IH. }
    rewrite (run_contained pages Hnd Hc) in Hrun.
    apply (no_failure_iff pages Hc).
    destruct (filter (failed test_func) pages); [reflexivity | discriminate Hrun].
  - intros Hall.
    assert (Forall (contained test_func) pages) as Hc.
    { eapply Forall_impl; [|exact Hall]. intros np H. unfold contained. now rewrite H. }
    rewrite (run_contained pages Hnd Hc).
    now rewrite (proj2 (no_failure_iff pages Hc) Hall).
Qed.

End Loop.

(** X12.  With one entry per browser, as the dict [self.pages] has them,
    [_run_test_on_all_browsers] returns without raising exactly when the test
    function returned on every page. *)
Theorem passes_iff_every_browser_passes :
  forall (Page : Type) (test_func : Page -> option BrowserRuns.Exception)
         (pages : list (string * Page)),
    NoDup (map fst pages) ->
    (BrowserRuns._run_test_on_all_browsers test_func pages = None <->
     Forall (fun np => test_func (snd np) = None) pages).
Proof. intros Page test_func pages. apply passes_iff. Qed.

Lemma passes_iff_every_browser_passes_witness :
  BrowserRuns._run_test_on_all_browsers sample_test
    [("chromium", PageOk); ("firefox", PageOk); ("webkit", PageOk)] = None.
Proof.
  apply (passes_iff_every_browser_passes SamplePage sample_test
           [("chromium", PageOk); ("firefox", PageOk); ("webkit", PageOk)]).
  - repeat constructor; cbn; intuition discriminate.
  - repeat constructor.
Defined.

(** X13.  An exception that is no [AssertionError], such as the [SkipTest] of
    [self.skipTest], leaves the method at once with that exception: the browsers
    after it are not run, and the failures recorded for the browsers before it
    are not reported. *)
Theorem other_exception_ends_the_loop :
  forall (Page : Type) (test_func : Page -> option BrowserRuns.Exception)
         (pre post : list (string * Page)) (name : string) (page : Page)
         (e : BrowserRuns.Exception),
    Forall (fun np => escapes (test_func (snd np)) = false) pre ->
    test_func page = Some e -> BrowserRuns.is_assertion e = false ->
    BrowserRuns._run_test_on_all_browsers test_func (pre ++ (name, page) :: post)%list
      = Some e.
Proof.
  intros Page test_func pre post name page e Hpre He Hna.
  unfold BrowserRuns._run_test_on_all_browsers.
  now rewrite (run_pages_escape test_func pre post name page e [] Hpre He Hna).
Qed.

Lemma other_exception_ends_the_loop_witness :
  BrowserRuns._run_test_on_all_browsers sample_test
    ([("chromium", PageBroken)] ++ ("firefox", PageCurrency) :: [("webkit", PageBroken)])%list
  = Some (BrowserRuns.SkipTest "Currency mismatch error: currency").
Proof.
  apply (other_exception_ends_the_loop SamplePage sample_test
           [("chromium", PageBroken)] [("webkit", PageBroken)] "firefox" PageCurrency).
  - repeat constructor.
  - reflexivity.
  - reflexivity.
Defined.

(** X14.  With one entry per browser and no exception other than
    [AssertionError], the method raises when some browser failed, with the
    message "Test failed on browsers: " and then, separated by ", " and in the
    order of the browsers, "name: FAIL: text" for each browser that failed and for
    no other. *)
Theorem failure_report_lists_failed_browsers :
  forall (Page : Type) (test_func : Page -> option BrowserRuns.Exception)
         (pages : list (string * Page)),
    NoDup (map fst pages) ->
    Forall (fun np => escapes (test_func (snd np)) = false) pages ->
    filter (failed test_func) pages <> [] ->
    BrowserRuns._run_test_on_all_browsers test_func pages =
    Some (BrowserRuns.AssertionError
            ("Test failed on browsers: " ++
             PyText.join ", "
               (map (fun np => fst np ++ ": FAIL: " ++
                               match test_func (snd np) with
                               | Some (BrowserRuns.AssertionError text) => text
                               | _ => ""
                               end)
                    (filter (failed test_func) pages)))).
Proof.
  intros Page test_func pages Hnd Hc Hsome.
  rewrite (run_contained test_func pages Hnd Hc).
  assert (map (failure_line test_func) (filter (failed test_func) pages)
          = map (fun np => fst np ++ ": FAIL: " ++
                           match test_func (snd np) with
                           | Some (BrowserRuns.AssertionError text) => text
                           | _ => ""
                           end)
                (filter (failed test_func) pages)) as ->.
  { apply map_ext_in. intros np Hin. apply filter_In in Hin as [_ Hf].
    unfold failure_line, failed, recorded in *.
    destruct (test_func (snd np)) as [[m | r | o]|]; try discriminate.
    reflexivity. }
  destruct (filter (failed test_func) pages) as [|np rest]; [congruence | reflexivity].
Qed.

Lemma failure_report_lists_failed_browsers_witness :
  BrowserRuns._run_test_on_all_browsers sample_test
    [("chromium", PageBroken); ("firefox", PageOk); ("webkit", PageBroken)]
  = Some (BrowserRuns.AssertionError
            "Test failed on browsers: chromium: FAIL: Total should be calculated correctly, webkit: FAIL: Total should be calculated correctly").
Proof.
  apply (failure_report_lists_failed_browsers SamplePage sample_test
           [("chromium", PageBroken); ("firefox", PageOk); ("webkit", PageBroken)]).
  - repeat constructor; cbn; intuition discriminate.
  - repeat constructor.
  - discriminate.
Defined.

End BrowserRunsFacts.

(** ** The checks of the integration test *)

Module TestLogicFacts.

Import More.

(** How [test_logic] ends when the error area shows. *)
Lemma test_logic_on_error (p : BrowserRuns.Submitted) :
  BrowserRuns.has_error_message p = true ->
  snd (BrowserRuns.test_logic p) =
  if Py.str_in "currency" (PyText.lower (BrowserRuns.error_text p))
  then Some (BrowserRuns.SkipTest ("Currency mismatch error: " ++ BrowserRuns.error_text p))
  else Some (BrowserRuns.AssertionError
               ("Unexpected ERPNext error: " ++ BrowserRuns.error_text p)).
Proof.
  intros H. unfold BrowserRuns.test_logic. rewrite H. cbn [andb].
  destruct (Py.str_in "currency" (PyText.lower (BrowserRuns.error_text p)));
    reflexivity.
Qed.

(** Without the error area the test never skips. *)
Lemma test_logic_without_error (p : BrowserRuns.Submitted) :
  BrowserRuns.has_error_message p = false ->
  escapes (snd (BrowserRuns.test_logic p)) = false.
Proof.
  intros H. unfold BrowserRuns.test_logic. rewrite H. cbn [andb].
  destruct (negb (BrowserRuns.has_success_message p)); [reflexivity|].
  destruct (negb (Py.startswith (BrowserRuns.erpnext_invoice_number p) "SINV-"
                  || Py.startswith (BrowserRuns.erpnext_invoice_number p) "ACC-SINV-"));
    reflexivity.
Qed.

(** Text that has the word in any mix of capitals and small letters has it in
    small letters once lowered. *)
Lemma lowered_has_word (pre u post : string) :
  PyText.lower u = "currency" ->
  Py.str_in "currency" (PyText.lower (pre ++ u ++ post)) = true.
Proof.
  intros H. rewrite !PyTextFacts.lower_app, H. apply PyTextFacts.str_in_middle.
Qed.

(** The fields of a page that is given field by field. *)
Ltac simpl_page :=
  cbn [BrowserRuns.has_success_message BrowserRuns.has_error_message
       BrowserRuns.has_warning_message BrowserRuns.error_text
       BrowserRuns.warning_text BrowserRuns.erpnext_invoice_number].

(** X15.  The checks of [test_real_erpnext_invoice_creation] pass exactly when the
    error area is not shown, the success area is shown and the invoice number
    starts with [SINV-] or [ACC-SINV-].  Whether a warning is shown, and what it
    says, has no part in how the test ends. *)
Theorem test_logic_passes_iff :
  (forall p : BrowserRuns.Submitted,
      snd (BrowserRuns.test_logic p) = None <->
      BrowserRuns.has_error_message p = false /\
      BrowserRuns.has_success_message p = true /\
      (Py.startswith (BrowserRuns.erpnext_invoice_number p) "SINV-"
       || Py.startswith (BrowserRuns.erpnext_invoice_number p) "ACC-SINV-") = true) /\
  (forall (success error warning warning' : bool)
          (error_text warning_text warning_text' number : string),
      snd (BrowserRuns.test_logic
             (BrowserRuns.mkSubmitted success error warning error_text warning_text number))
      = snd (BrowserRuns.test_logic
               (BrowserRuns.mkSubmitted success error warning' error_text warning_text'
                  number))).
Proof.
  split.
  - intros [s e w et wt n]. unfold BrowserRuns.test_logic. simpl_page.
    destruct e; cbn [andb negb].
    + destruct (Py.str_in "currency" (PyText.lower et)); cbn [snd];
        (split; [discriminate | intros [H _]; discriminate]).
    + destruct s; cbn [negb].
      * destruct (Py.startswith n "SINV-" || Py.startswith n "ACC-SINV-");
          cbn [negb snd]; split; intros H;
          try discriminate; try (now repeat split);
          try (destruct H as [_ [_ H]]; discriminate).
      * cbn [snd]. split; [discriminate | intros [_ [H _]]; discriminate].
  - intros s e w w' et wt wt' n. unfold BrowserRuns.test_logic. simpl_page.
    destruct e; cbn [andb negb].
    + destruct (Py.str_in "currency" (PyText.lower et)); reflexivity.
    + destruct s; cbn [negb]; [|destruct w, w'; reflexivity].
      destruct (Py.startswith n "SINV-" || Py.startswith n "ACC-SINV-");
        cbn [negb]; destruct w, w'; reflexivity.
Qed.

(** X16.  An error text with the word "currency" in it, in any mix of capitals and
    small letters, makes the test skip and not fail, also when the success area
    shows as well. *)
Theorem currency_error_skips_the_test :
  forall (p : BrowserRuns.Submitted) (pre word post : string),
    BrowserRuns.has_error_message p = true ->
    BrowserRuns.error_text p = pre ++ word ++ post ->
    PyText.lower word = "currency" ->
    snd (BrowserRuns.test_logic p)
      = Some (BrowserRuns.SkipTest
                ("Currency mismatch error: " ++ BrowserRuns.error_text p)).
Proof.
  intros p pre word post Herr Htext Hword.
  rewrite (test_logic_on_error p Herr).
  now rewrite Htext, (lowered_has_word pre word post Hword).
Qed.

Lemma currency_error_skips_the_test_witness :
  snd (BrowserRuns.test_logic
         (BrowserRuns.mkSubmitted true true false
            "Invalid Currency for account" "" "SINV-2026-00001"))
  = Some (BrowserRuns.SkipTest "Currency mismatch error: Invalid Currency for account").
Proof.
  apply (currency_error_skips_the_test
           (BrowserRuns.mkSubmitted true true false
              "Invalid Currency for account" "" "SINV-2026-00001")
           "Invalid " "Currency" " for account");
    reflexivity.
Defined.

(** X17.  Run through the browser loop, a currency error in one browser skips the
    whole test: when no browser before it shows a currency error, the method ends
    with the [SkipTest] of that browser, whatever the browsers before it failed on
    and without running the browsers after it. *)
Theorem currency_error_in_one_browser_skips_all :
  forall (pre post : list (string * BrowserRuns.Submitted)) (name : string)
         (p : BrowserRuns.Submitted) (before word after : string),
    Forall (fun np =>
              BrowserRuns.has_error_message (snd np) = true ->
              Py.str_in "currency" (PyText.lower (BrowserRuns.error_text (snd np)))
                = false) pre ->
    BrowserRuns.has_error_message p = true ->
    BrowserRuns.error_text p = before ++ word ++ after ->
    PyText.lower word = "currency" ->
    BrowserRuns._run_test_on_all_browsers (fun q => snd (BrowserRuns.test_logic q))
      (pre ++ (name, p) :: post)%list
    = Some (BrowserRuns.SkipTest
              ("Currency mismatch error: " ++ BrowserRuns.error_text p)).
Proof.
  intros pre post name p before word after Hpre Herr Htext Hword.
  unfold BrowserRuns._run_test_on_all_browsers.
  rewrite (BrowserRunsFacts.run_pages_escape
             (fun q => snd (BrowserRuns.test_logic q)) pre post name p
             (BrowserRuns.SkipTest
                ("Currency mismatch error: " ++ BrowserRuns.error_text p)) []).
  - reflexivity.
  - eapply Forall_impl; [|exact Hpre]. intros [n q] H. unfold contained. cbn [snd] in *.
    destruct (BrowserRuns.has_error_message q) eqn:E.
    + rewrite (test_logic_on_error q E), (H eq_refl). reflexivity.
    + now apply test_logic_without_error.
  - rewrite (test_logic_on_error p Herr).
    now rewrite Htext, (lowered_has_word before word after Hword).
  - reflexivity.
Qed.

Lemma currency_error_in_one_browser_skips_all_witness :
  BrowserRuns._run_test_on_all_browsers (fun q => snd (BrowserRuns.test_logic q))
    ([("chromium", BrowserRuns.mkSubmitted false true false "Customer not found" "" "")]
     ++ ("firefox",
         BrowserRuns.mkSubmitted false true false "CURRENCY mismatch" "" "")
     :: [("webkit", BrowserRuns.mkSubmitted true false false "" "" "SINV-2026-00001")])%list
  = Some (BrowserRuns.SkipTest "Currency mismatch error: CURRENCY mismatch").
Proof.
  apply (currency_error_in_one_browser_skips_all
           [("chromium", BrowserRuns.mkSubmitted false true false "Customer not found" "" "")]
           [("webkit", BrowserRuns.mkSubmitted true false false "" "" "SINV-2026-00001")]
           "firefox"
           (BrowserRuns.mkSubmitted false true false "CURRENCY mismatch" "" "")
           "" "CURRENCY" " mismatch").
  - repeat constructor.
  - reflexivity.
  - reflexivity.
  - reflexivity.
Defined.

End TestLogicFacts.

(** ** The route stubs and the mock server *)

Module RouteStubsFacts.

Import Contract.

(** X18.  [handle_company_check] depends on the URL alone: it answers every
    request whose URL has "Company" in it with the company DEMO and the currency
    USD, whatever the method, and lets every other request continue. *)
Theorem company_stub_ignores_the_method :
  forall request : RouteStubs.RouteRequest,
    (Py.str_in "Company" (RouteStubs.url request) = true ->
       RouteStubs.handle_company_check request =
       RouteStubs.Fulfill 200 "application/json"
         (JDict [("data", JDict [("name", JStr "DEMO");
                                 ("default_currency", JStr "USD")])])) /\
    (Py.str_in "Company" (RouteStubs.url request) = false ->
       RouteStubs.handle_company_check request = RouteStubs.Continue).
Proof.
  intros request. unfold RouteStubs.handle_company_check. split; intros H.
  - rewrite H.
    destruct (Py.str_in "/api/resource/Company" (RouteStubs.url request)
              && String.eqb (RouteStubs.method request) "GET"); reflexivity.
  - rewrite H.
    destruct (Py.str_in "/api/resource/Company" (RouteStubs.url request)) eqn:E.
    + apply (PyFacts.str_in_app_l "/api/resource/" "Company") in E. congruence.
    + reflexivity.
Qed.

Lemma company_stub_ignores_the_method_witness :
  RouteStubs.handle_company_check
    (RouteStubs.mkRouteRequest "http://localhost:8080/api/resource/Company/DEMO" "DELETE")
  = RouteStubs.Fulfill 200 "application/json"
      (JDict [("data", JDict [("name", JStr "DEMO"); ("default_currency", JStr "USD")])]).
Proof.
  apply (proj1 (company_stub_ignores_the_method
                  (RouteStubs.mkRouteRequest
                     "http://localhost:8080/api/resource/Company/DEMO" "DELETE"))).
  reflexivity.
Defined.

(** X19.  The route stubs and the mock server agree where both answer.  What
    [handle_customer_check] and [handle_item_check] fulfil is what [do_GET] sends
    for the same URL as path when it has no [/Company/]; what
    [handle_invoice_create] fulfils is what [do_POST] sends when the URL passes
    none of its earlier tests; what [handle_invoice_submit] fulfils is what
    [do_PUT] sends. *)
Theorem stubs_agree_with_mock_server :
  forall (request : RouteStubs.RouteRequest) (w : list MockAPIHandler.HttpResponse)
         (status : Z) (content_type : string) (body : json),
    (RouteStubs.handle_customer_check request = RouteStubs.Fulfill status content_type body ->
     Py.str_in "/Company/" (RouteStubs.url request) = false ->
       answers (MockAPIHandler.do_GET (RouteStubs.url request) w) w status body) /\
    (RouteStubs.handle_item_check request = RouteStubs.Fulfill status content_type body ->
     Py.str_in "/Company/" (RouteStubs.url request) = false ->
       answers (MockAPIHandler.do_GET (RouteStubs.url request) w) w status body) /\
    (RouteStubs.handle_invoice_create request = RouteStubs.Fulfill status content_type body ->
     MockAPIHandler.branch_test MockAPIHandler.UploadInvoice (RouteStubs.url request) = false ->
     MockAPIHandler.branch_test MockAPIHandler.UploadPO (RouteStubs.url request) = false ->
     MockAPIHandler.branch_test MockAPIHandler.Submit (RouteStubs.url request) = false ->
       answers (MockAPIHandler.do_POST (RouteStubs.url request) w) w status body) /\
    (RouteStubs.handle_invoice_submit request = RouteStubs.Fulfill status content_type body ->
       answers (MockAPIHandler.do_PUT (RouteStubs.url request) w) w status body).
Proof.
  intros [url method] w status content_type body. cbn [RouteStubs.url].
  repeat apply conj.
  - unfold RouteStubs.handle_customer_check. cbn [RouteStubs.url RouteStubs.method].
    destruct (String.eqb method "GET"); [|discriminate]. cbn [andb].
    destruct (Py.str_in "/api/resource/Customer/" url) eqn:E; [|discriminate].
    intros H Hc. inversion H; subst.
    apply (PyFacts.str_in_app_l "/api/resource" "/Customer/") in E.
    unfold MockAPIHandler.do_GET. rewrite Hc, E. apply MockFacts.send_answers.
  - unfold RouteStubs.handle_item_check. cbn [RouteStubs.url RouteStubs.method].
    destruct (String.eqb method "GET"); [|discriminate]. cbn [andb].
    destruct (Py.str_in "/api/resource/Item/" url) eqn:E; [|discriminate].
    intros H Hc. inversion H; subst.
    apply (PyFacts.str_in_app_l "/api/resource" "/Item/") in E.
    unfold MockAPIHandler.do_GET. rewrite Hc, E, orb_true_r.
    apply MockFacts.send_answers.
  - unfold RouteStubs.handle_invoice_create. cbn [RouteStubs.url RouteStubs.method].
    destruct (String.eqb method "POST"); [|discriminate]. cbn [andb].
    destruct (Py.str_in "Sales Invoice" url) eqn:E; [|discriminate].
    intros H H1 H2 H3. inversion H; subst.
    rewrite MockFacts.do_POST_first_match.
    unfold MockAPIHandler.post_order. cbn [MockAPIHandler.first_match].
    rewrite H1, H2, H3. cbn [MockAPIHandler.branch_test]. rewrite E.
    apply MockFacts.send_answers.
  - unfold RouteStubs.handle_invoice_submit. cbn [RouteStubs.url RouteStubs.method].
    destruct (String.eqb method "PUT"); [|discriminate]. cbn [andb].
    destruct (Py.str_in "SINV-" url) eqn:E; [|discriminate].
    intros H. inversion H; subst.
    unfold MockAPIHandler.do_PUT. rewrite E. apply MockFacts.send_answers.
Qed.

Lemma stubs_agree_with_mock_server_witness :
  answers
    (MockAPIHandler.do_GET "http://localhost:8080/api/resource/Customer/Test%20Customer" [])
    [] 404 (JDict [("exc", JStr "Not Found")]).
Proof.
  apply (proj1 (stubs_agree_with_mock_server
                  (RouteStubs.mkRouteRequest
                     "http://localhost:8080/api/resource/Customer/Test%20Customer" "GET")
                  [] 404%Z "application/json" (JDict [("exc", JStr "Not Found")])));
    reflexivity.
Defined.

End RouteStubsFacts.
